(** * A shallow embedding of the repair workflow of the [agent] package

    Sources embedded here:
    - [agent/workflow.py]:      [_run_cmd], [_extract_missing_includes],
                                [_plan], [run_workflow];
    - [agent/engine_client.py]: [EngineClient._run] and the request helpers
                                [read_file], [search_text], [apply_edits].

    Python values are modelled as they are at run time: a [str] is a sequence
    of Unicode code points, a [dict] is an insertion-ordered association list,
    and a failing operation raises one of the exceptions of [exn].  External
    processes (the workspace's [./build.sh] and the [engine_cli] binary) are
    oracles of a [World]; every theorem quantifies over all of them. *)

From Stdlib Require Import List ZArith NArith Bool Lia String Ascii PrimFloat.
From Stdlib Require Import DecimalString.
Import ListNotations.

Set Implicit Arguments.
Set Warnings "-register-all".
Local Open Scope Z_scope.

(* ================================================================= *)
(** ** Python strings *)

(** A [str] is a list of code points. *)
Definition pystr := list N.

(** An ASCII literal as a [str]. *)
Definition str (s : string) : pystr :=
  List.map N_of_ascii (list_ascii_of_string s).

Definition str_of_int (z : Z) : pystr :=
  str (NilZero.string_of_int (Z.to_int z)).

Definition pystr_eqb (a b : pystr) : bool :=
  if list_eq_dec N.eq_dec a b then true else false.

(** [x in l] on a list of strings. *)
Definition str_in (x : pystr) (l : list pystr) : bool :=
  existsb (pystr_eqb x) l.

(** [s.startswith(p)], and the rest of [s] after [p]. *)
Fixpoint strip_prefix (p s : pystr) : option pystr :=
  match p, s with
  | [], _ => Some s
  | _ :: _, [] => None
  | a :: p', b :: s' => if N.eqb a b then strip_prefix p' s' else None
  end.

Definition startswith (s p : pystr) : bool :=
  match strip_prefix p s with Some _ => true | None => false end.

(** [s.endswith("\n")]. *)
Definition LF : N := 10%N.
Definition CR : N := 13%N.

Definition endswith_newline (s : pystr) : bool :=
  match rev s with
  | c :: _ => N.eqb c LF
  | [] => false
  end.

(** [x in s] on strings: [x] occurs in [s] as a contiguous run. *)
Fixpoint substr_in (x s : pystr) : bool :=
  startswith s x ||
  match s with
  | [] => false
  | _ :: s' => substr_in x s'
  end.

(** The code points for which [str.isspace] holds; they are also what [\s]
    matches in a [str] pattern and what [str.strip()] removes. *)
Definition is_space (c : N) : bool :=
  ((9 <=? c) && (c <=? 13) || (28 <=? c) && (c <=? 32) ||
   existsb (N.eqb c) [133; 160; 5760; 8232; 8233; 8239; 8287; 12288] ||
   (8192 <=? c) && (c <=? 8202))%N.

(** [not s.strip()]: nothing but white space. *)
Definition strip_is_empty (s : pystr) : bool := forallb is_space s.

(** The line boundaries of [str.splitlines]. *)
Definition is_linebreak (c : N) : bool :=
  existsb (N.eqb c) [10; 11; 12; 13; 28; 29; 30; 133; 8232; 8233]%N.

(** [s.splitlines()]: the lines without their terminators; CR LF is one
    terminator; a terminator at the very end opens no further line. *)
Fixpoint splitlines (s : pystr) : list pystr :=
  match s with
  | [] => []
  | c :: rest =>
      if is_linebreak c then
        [] :: (if N.eqb c CR
               then match rest with
                    | d :: rest' =>
                        if N.eqb d LF then splitlines rest' else splitlines rest
                    | [] => []
                    end
               else splitlines rest)
      else
        match splitlines rest with
        | [] => [[c]]
        | l :: ls => (c :: l) :: ls
        end
  end.

(** [sep.join(l)]. *)
Fixpoint join (sep : pystr) (l : list pystr) : pystr :=
  match l with
  | [] => []
  | [x] => x
  | x :: xs => x ++ sep ++ join sep xs
  end.

(* ================================================================= *)
(** ** Regular expressions of [re.search]

    Only the operators that occur in the patterns of
    [_extract_missing_includes]: literal text, [\s+], alternation and
    concatenation.  [rmatch r k s] holds when some prefix of [s] matches [r]
    and the continuation [k] accepts what follows it. *)

Inductive regex : Type :=
| Lit (l : pystr)
| Spaces1
| Alt (a b : regex)
| Seq (a b : regex).

Fixpoint spaces1 (k : pystr -> bool) (s : pystr) : bool :=
  match s with
  | [] => false
  | c :: rest => is_space c && (spaces1 k rest || k rest)
  end.

Fixpoint rmatch (r : regex) (k : pystr -> bool) (s : pystr) : bool :=
  match r with
  | Lit l => match strip_prefix l s with Some rest => k rest | None => false end
  | Spaces1 => spaces1 k s
  | Alt a b => rmatch a k s || rmatch b k s
  | Seq a b => rmatch a (rmatch b k) s
  end.

(** [re.search(r, s)] is truthy: a match starts at some position of [s]. *)
Fixpoint re_search (r : regex) (s : pystr) : bool :=
  rmatch r (fun _ => true) s ||
  match s with
  | [] => false
  | _ :: s' => re_search r s'
  end.

Fixpoint seqs (rs : list regex) : regex :=
  match rs with
  | [] => Lit []
  | [r] => r
  | r :: rs' => Seq r (seqs rs')
  end.

(* ================================================================= *)
(** ** [_extract_missing_includes] *)

(** [(no member named|is not a member of)\s+'NAME'\s+in\s+namespace\s+'std'] *)
Definition pat_no_member (name : string) : regex :=
  seqs [Alt (Lit (str "no member named")) (Lit (str "is not a member of"));
        Spaces1; Lit (str "'" ++ str name ++ str "'"); Spaces1; Lit (str "in");
        Spaces1; Lit (str "namespace"); Spaces1; Lit (str "'std'")].

(** [error: 'NAME' is not a member of 'std'] *)
Definition pat_error (name : string) : regex :=
  Lit (str "error: '" ++ str name ++ str "' is not a member of 'std'").

(** [namespace\s+'std::this_thread'] *)
Definition pat_ns_ascii : regex :=
  seqs [Lit (str "namespace"); Spaces1; Lit (str "'std::this_thread'")].

(** The same between the typographic quotes U+2018 and U+2019. *)
Definition pat_ns_curly : regex :=
  seqs [Lit (str "namespace"); Spaces1;
        Lit ([8216%N] ++ str "std::this_thread" ++ [8217%N])].

(** The inner [add]: append unless already there. *)
Definition add (header : pystr) (need : list pystr) : list pystr :=
  if negb (str_in header need) then need ++ [header] else need.

Definition _extract_missing_includes (build_stderr : pystr) : list pystr :=
  let need := [] in
  let need :=
    if re_search (pat_no_member "chrono") build_stderr
       || re_search (pat_error "chrono") build_stderr
    then add (str "chrono") need else need in
  let need :=
    if re_search (pat_no_member "this_thread") build_stderr
       || re_search (pat_error "this_thread") build_stderr
    then add (str "thread") need else need in
  let need :=
    if re_search pat_ns_ascii build_stderr
       || re_search pat_ns_curly build_stderr
    then add (str "thread") need else need in
  need.

(** The signature table the function above is written from: each pattern
    with the dependency it stands for. *)
Definition signatures : list (regex * pystr) :=
  [ (pat_no_member "chrono", str "chrono");
    (pat_error "chrono", str "chrono");
    (pat_no_member "this_thread", str "thread");
    (pat_error "this_thread", str "thread");
    (pat_ns_ascii, str "thread");
    (pat_ns_curly, str "thread") ].

(** [text] carries a recognized signature of dependency [dep]. *)
Definition has_signature_for (dep text : pystr) : bool :=
  existsb (fun sg => pystr_eqb (snd sg) dep && re_search (fst sg) text)
          signatures.

Definition has_signature (text : pystr) : bool :=
  existsb (fun sg => re_search (fst sg) text) signatures.


(* ================================================================= *)
(** ** Python values, as [json.loads] produces them *)

Inductive pyvalue : Type :=
| PNone
| PBool (b : bool)
| PInt (z : Z)
| PFloat (f : float)
| PStr (s : pystr)
| PList (l : list pyvalue)
| PDict (d : list (pystr * pyvalue)).

(** Truth value of an object in a condition. *)
Definition truthy (v : pyvalue) : bool :=
  match v with
  | PNone => false
  | PBool b => b
  | PInt z => negb (z =? 0)
  | PFloat f => negb (PrimFloat.eqb f 0%float)
  | PStr s => match s with [] => false | _ => true end
  | PList l => match l with [] => false | _ => true end
  | PDict d => match d with [] => false | _ => true end
  end.

(** A [dict] keeps its keys in insertion order; a key occurs once. *)
Definition dict := list (pystr * pyvalue).

Fixpoint dict_lookup (d : dict) (k : pystr) : option pyvalue :=
  match d with
  | [] => None
  | (k', v) :: d' => if pystr_eqb k' k then Some v else dict_lookup d' k
  end.

(** [d[k] = v]: overwrite in place, or append a new key. *)
Fixpoint dict_set (d : dict) (k : pystr) (v : pyvalue) : dict :=
  match d with
  | [] => [(k, v)]
  | (k', v') :: d' =>
      if pystr_eqb k' k then (k', v) :: d' else (k', v') :: dict_set d' k v
  end.

(** [d.get(k, default)]. *)
Definition dict_get (d : dict) (k : pystr) (default : pyvalue) : pyvalue :=
  match dict_lookup d k with Some v => v | None => default end.

Inductive exn : Type :=
| TimeoutExpired      (* subprocess.TimeoutExpired *)
| AttributeError
| KeyError
| TypeError.

Definition result (A : Type) : Type := (exn + A)%type.

(** [v.get(k)] on an arbitrary object: only a [dict] has the method. *)
Definition py_get (v : pyvalue) (k : pystr) : result pyvalue :=
  match v with
  | PDict d => inr (dict_get d k PNone)
  | _ => inl AttributeError
  end.

(** [v[k]] with a string key, on a value that went through [.get] before. *)
Definition py_getitem (v : pyvalue) (k : pystr) : result pyvalue :=
  match v with
  | PDict d =>
      match dict_lookup d k with Some x => inr x | None => inl KeyError end
  | _ => inl TypeError
  end.

(** [x in v] for a string [x]: substring of a [str], element of a [list],
    key of a [dict]; the other objects are not containers. *)
Definition py_in (x : pystr) (v : pyvalue) : result bool :=
  match v with
  | PStr s => inr (substr_in x s)
  | PList l =>
      inr (existsb (fun e => match e with
                             | PStr t => pystr_eqb t x
                             | _ => false
                             end) l)
  | PDict d => inr (existsb (fun kv => pystr_eqb (fst kv) x) d)
  | _ => inl TypeError
  end.

(* ================================================================= *)
(** ** The world outside, and the effects of a run *)

(** What [subprocess.run] hands back for a process that has exited. *)
Record CompletedProcess : Type := {
  returncode : Z;
  stdout : pystr;
  stderr : pystr
}.

(** A child process exits after some time, or never does. *)
Inductive outcome : Type :=
| Exits (after_ms : Z) (p : CompletedProcess)
| Hangs.

(** The oracles of one run.  [engine_cli] is assumed to exit: no timeout is
    set on it, a hanging engine would block the run for ever. *)
Record World : Type := {
  time_ms : Z;                                  (* int(time.time() * 1000) *)
  build_sh : nat -> outcome;                    (* the n-th [./build.sh] *)
  engine_cli : list pystr -> CompletedProcess;  (* by command line *)
  json_loads : pystr -> option pyvalue          (* None: JSONDecodeError *)
}.

(** What a run does to the outside, in order.  [WriteText] records the
    object handed to [json.dumps] (the text itself for [task.txt]). *)
Inductive event : Type :=
| Mkdir (dir : pystr)
| WriteText (file : pystr) (data : pyvalue)
| RunCmd (cmd : list pystr) (cwd : pystr) (timeout_s : Z)
| RunEngine (argv : list pystr).

Definition trace := list event.

(** Computations that log events and may raise. *)
Definition M (A : Type) : Type := trace -> result A * trace.

Definition ret {A} (a : A) : M A := fun tr => (inr a, tr).
Definition raise {A} (e : exn) : M A := fun tr => (inl e, tr).
Definition bind {A B} (m : M A) (f : A -> M B) : M B :=
  fun tr => match m tr with
            | (inr a, tr') => f a tr'
            | (inl e, tr') => (inl e, tr')
            end.
Definition emit (e : event) : M unit := fun tr => (inr tt, tr ++ [e]).
Definition lift {A} (r : result A) : M A := fun tr => (r, tr).
Definition get_trace : M trace := fun tr => (inr tr, tr).

Notation "x <- m ;; k" := (bind m (fun x => k))
  (at level 61, m at next level, right associativity).
Notation "m ;;; k" := (bind m (fun _ => k))
  (at level 61, right associativity).

Definition is_run_cmd (e : event) : bool :=
  match e with RunCmd _ _ _ => true | _ => false end.

Definition is_run_engine (e : event) : bool :=
  match e with RunEngine _ => true | _ => false end.

Definition writes_file (name : pystr) (e : event) : bool :=
  match e with
  | WriteText file _ => pystr_eqb file name
  | _ => false
  end.

(** How many builds a trace holds. *)
Definition builds_run (tr : trace) : nat := List.length (filter is_run_cmd tr).

(** [a / b] on paths. *)
Definition path_join (a b : pystr) : pystr := a ++ str "/" ++ b.

(* ================================================================= *)
(** ** [agent/engine_client.py] *)

Record EngineClient : Type := { engine_path : pystr }.

(** The [bool] singleton test [v is True]. *)
Definition is_True (v : pyvalue) : bool :=
  match v with PBool true => true | _ => false end.

Section Run.

Variable w : World.

(** What [EngineClient._run] returns or raises, given the process
    [subprocess.run] handed back. *)
Definition run_result (proc : CompletedProcess) (args : list pystr)
  : result pyvalue :=
  if negb (returncode proc =? 0) && strip_is_empty (stdout proc) then
    inr (PDict [ (str "ok", PBool false);
                 (str "error", PStr (str "engine_failed"));
                 (str "stderr", PStr (stderr proc));
                 (str "args", PList (map PStr args)) ])
  else
    match json_loads w (stdout proc) with
    | None =>
        inr (PDict [ (str "ok", PBool false);
                     (str "error", PStr (str "engine_invalid_json"));
                     (str "stdout", PStr (stdout proc));
                     (str "stderr", PStr (stderr proc));
                     (str "args", PList (map PStr args)) ])
    | Some payload =>
        if negb (returncode proc =? 0) then
          match py_get payload (str "ok") with
          | inl e => inl e
          | inr ok =>
              if is_True ok then
                match payload with
                | PDict d =>
                    let d := dict_set d (str "ok") (PBool false) in
                    let d :=
                      dict_set d (str "error")
                        (dict_get d (str "error")
                                  (PStr (str "engine_nonzero_exit"))) in
                    inr (PDict d)
                | _ => inl AttributeError
                end
              else inr payload
          end
        else inr payload
    end.

Definition _run (self : EngineClient) (args : list pystr) : M pyvalue :=
  let argv := engine_path self :: args in
  emit (RunEngine argv) ;;;
  lift (run_result (engine_cli w argv) args).

Definition list_files (self : EngineClient) (root : pystr) : M pyvalue :=
  _run self [str "list-files"; str "--root"; root].

Definition read_file (self : EngineClient) (path : pystr) (max_bytes : Z)
  : M pyvalue :=
  _run self [str "read-file"; str "--path"; path;
             str "--max-bytes"; str_of_int max_bytes].

Definition search_text (self : EngineClient) (root query : pystr)
                       (topk max_bytes : Z) : M pyvalue :=
  _run self [str "search-text"; str "--root"; root; str "--query"; query;
             str "--topk"; str_of_int topk;
             str "--max-bytes"; str_of_int max_bytes].

Definition apply_edits (self : EngineClient) (root edits_json_path : pystr)
  : M pyvalue :=
  _run self [str "apply-edits"; str "--root"; root;
             str "--edits-json"; edits_json_path].

Definition rollback (self : EngineClient) (root snapshot_id : pystr)
  : M pyvalue :=
  _run self [str "rollback"; str "--root"; root;
             str "--snapshot-id"; snapshot_id].

(* ================================================================= *)
(** ** [agent/workflow.py] *)

(** The dictionary [_run_cmd] returns. *)
Record BuildResult : Type := {
  code : Z;
  build_stdout : pystr;
  build_stderr : pystr;
  cmd : list pystr
}.

Definition build_json (b : BuildResult) : pyvalue :=
  PDict [ (str "code", PInt (code b));
          (str "stdout", PStr (build_stdout b));
          (str "stderr", PStr (build_stderr b));
          (str "cmd", PList (map PStr (cmd b))) ].

(** [subprocess.run(..., timeout=timeout_s)]: a child still running when
    the time is up is killed and [TimeoutExpired] is raised. *)
Definition _run_cmd (cmd : list pystr) (cwd : pystr) (timeout_s : Z)
  : M BuildResult :=
  tr <- get_trace ;;
  emit (RunCmd cmd cwd timeout_s) ;;;
  match build_sh w (builds_run tr) with
  | Exits after_ms proc =>
      if after_ms <=? 1000 * timeout_s then
        ret {| code := returncode proc;
               build_stdout := stdout proc;
               build_stderr := stderr proc;
               cmd := cmd |}
      else raise TimeoutExpired
  | Hangs => raise TimeoutExpired
  end.

Definition _plan (task : pystr) : list pystr :=
  [ [36816; 34892; 31034; 20363; 39033; 30446; 30340; 32; 98; 117; 105; 108;
     100; 65292; 25343; 21040; 38169; 35823; 26085; 24535]%N;
    [20174; 38169; 35823; 37324; 25552; 21462; 20851; 38190; 35789; 65292;
     29992; 24341; 25806; 26816; 32034; 30456; 20851; 25991; 20214; 19982;
     19978; 19979; 25991]%N;
    [29983; 25104; 26368; 23567; 20462; 25913; 65288; 101; 100; 105; 116;
     115; 47; 100; 105; 102; 102; 65289; 65292; 24182; 24212; 29992; 20462;
     25913]%N;
    [20877; 27425; 36816; 34892; 32; 98; 117; 105; 108; 100; 32; 39564;
     35777; 20462; 22797; 32467; 26524]%N ].

(** [f"#include <{h}>"] *)
Definition include_line (h : pystr) : pystr :=
  str "#include <" ++ h ++ str ">".

(** Lines 148-151, one of the two [if]s: [usage in content and include_line
    header not in content and header not in needed_headers], then [append].
    The conjuncts are evaluated from the left and only as far as needed. *)
Definition scan_usage (usage header : pystr) (content : pyvalue)
                      (needed_headers : list pystr) : result (list pystr) :=
  match py_in usage content with
  | inl e => inl e
  | inr false => inr needed_headers
  | inr true =>
      match py_in (include_line header) content with
      | inl e => inl e
      | inr true => inr needed_headers
      | inr false =>
          if negb (str_in header needed_headers)
          then inr (needed_headers ++ [header])
          else inr needed_headers
      end
  end.

(** Line 153: [[h for h in needed_headers if include_line h not in content]]. *)
Fixpoint drop_declared (content : pyvalue) (needed_headers : list pystr)
  : result (list pystr) :=
  match needed_headers with
  | [] => inr []
  | h :: rest =>
      match py_in (include_line h) content with
      | inl e => inl e
      | inr present =>
          match drop_declared content rest with
          | inl e => inl e
          | inr rest' => inr (if present then rest' else h :: rest')
          end
      end
  end.

(** Lines 148-153 together. *)
Definition rescan (content : pyvalue) (needed_headers : list pystr)
  : result (list pystr) :=
  match scan_usage (str "std::chrono::") (str "chrono") content
                   needed_headers with
  | inl e => inl e
  | inr needed1 =>
      match scan_usage (str "std::this_thread::") (str "thread") content
                       needed1 with
      | inl e => inl e
      | inr needed2 => drop_declared content needed2
      end
  end.

(** Lines 159-162: the index after the last line that starts with
    [#include], 0 when there is none. *)
Definition enumerate {A} (l : list A) : list (nat * A) :=
  combine (seq 0 (List.length l)) l.

Definition insert_position (lines : list pystr) : nat :=
  fold_left (fun insert_at il =>
               if startswith (snd il) (str "#include")
               then (fst il + 1)%nat else insert_at)
            (enumerate lines) 0%nat.

(** Line 163. *)
Definition new_lines_of (lines needed_headers : list pystr) : list pystr :=
  let insert_at := insert_position lines in
  firstn insert_at lines ++ map include_line needed_headers
    ++ skipn insert_at lines.

(** Line 164. *)
Definition replacement_of (content : pystr) (needed_headers : list pystr)
  : pystr :=
  join [LF] (new_lines_of (splitlines content) needed_headers)
    ++ (if endswith_newline content then [LF] else []).

(** One entry of [edits.json]. *)
Record Edit : Type := {
  path : pystr;
  start_line : Z;
  end_line : Z;
  replacement : pystr
}.

Definition edit_json (e : Edit) : pyvalue :=
  PDict [ (str "path", PStr (path e));
          (str "start_line", PInt (start_line e));
          (str "end_line", PInt (end_line e));
          (str "replacement", PStr (replacement e)) ].

Definition edits_json (es : list Edit) : pyvalue :=
  PDict [ (str "edits", PList (map edit_json es)) ].

(** Lines 158-176 on a [str] content. *)
Definition whole_file_edit (content : pystr) (needed_headers : list pystr)
  : Edit :=
  {| path := str "main.cpp";
     start_line := 1;
     end_line := Z.of_nat (List.length (splitlines content));
     replacement := replacement_of content needed_headers |}.

Definition is_empty {A} (l : list A) : bool :=
  match l with [] => true | _ => false end.

Definition run_workflow (task workspace : pystr) (engine : EngineClient)
                        (logs_root : pystr) : M pyvalue :=
  let run_id := str_of_int (time_ms w) in
  let run_dir := path_join logs_root run_id in
  emit (Mkdir run_dir) ;;;
  emit (WriteText (path_join run_dir (str "task.txt")) (PStr task)) ;;;
  let plan := _plan task in
  emit (WriteText (path_join run_dir (str "plan.json"))
                  (PList (map PStr plan))) ;;;
  build <- _run_cmd [str "./build.sh"] workspace 60 ;;
  emit (WriteText (path_join run_dir (str "build_0.json"))
                  (build_json build)) ;;;
  if code build =? 0 then
    ret (PDict [ (str "ok", PBool true); (str "run_id", PStr run_id);
                 (str "message", PStr (str "build already OK")) ])
  else
  let needed_headers := _extract_missing_includes (build_stderr build) in
  if is_empty needed_headers then
    ret (PDict [ (str "ok", PBool false); (str "run_id", PStr run_id);
                 (str "error", PStr (str "unsupported_build_error"));
                 (str "build", build_json build) ])
  else
  search <- search_text engine workspace (str "std::") 5 200000 ;;
  let retrieve := PDict [ (str "search", search) ] in
  emit (WriteText (path_join run_dir (str "retrieve.json")) retrieve) ;;;
  let target_path := path_join workspace (str "main.cpp") in
  file_payload <- read_file engine target_path 200000 ;;
  ok <- lift (py_get file_payload (str "ok")) ;;
  if negb (truthy ok) then
    ret (PDict [ (str "ok", PBool false); (str "run_id", PStr run_id);
                 (str "error", PStr (str "read_file_failed"));
                 (str "detail", file_payload) ])
  else
  content <- lift (py_getitem file_payload (str "content")) ;;
  needed_headers <- lift (rescan content needed_headers) ;;
  if is_empty needed_headers then
    ret (PDict [ (str "ok", PBool false); (str "run_id", PStr run_id);
                 (str "error", PStr (str "includes_already_present")) ])
  else
  match content with
  | PStr text =>
      let edits := edits_json [whole_file_edit text needed_headers] in
      let edits_path := path_join run_dir (str "edits.json") in
      emit (WriteText edits_path edits) ;;;
      apply_res <- apply_edits engine workspace edits_path ;;
      emit (WriteText (path_join run_dir (str "apply.json")) apply_res) ;;;
      ok <- lift (py_get apply_res (str "ok")) ;;
      if negb (truthy ok) then
        ret (PDict [ (str "ok", PBool false); (str "run_id", PStr run_id);
                     (str "error", PStr (str "apply_failed"));
                     (str "detail", apply_res) ])
      else
      build2 <- _run_cmd [str "./build.sh"] workspace 60 ;;
      emit (WriteText (path_join run_dir (str "build_1.json"))
                      (build_json build2)) ;;;
      if negb (code build2 =? 0) then
        ret (PDict [ (str "ok", PBool false); (str "run_id", PStr run_id);
                     (str "error", PStr (str "still_failing"));
                     (str "build", build_json build2) ])
      else
        snapshot_id <- lift (py_get apply_res (str "snapshot_id")) ;;
        ret (PDict [ (str "ok", PBool true); (str "run_id", PStr run_id);
                     (str "fixed", PStr (str "missing_include"));
                     (str "added_includes", PList (map PStr needed_headers));
                     (str "snapshot_id", snapshot_id) ])
  | _ => raise AttributeError     (* content.splitlines() *)
  end.

End Run.

(* ================================================================= *)
(** * Vocabulary of the statements *)

Definition occurrences (dep : pystr) (l : list pystr) : nat :=
  count_occ (list_eq_dec N.eq_dec) l dep.

Definition chrono_matched (text : pystr) : bool :=
  re_search (pat_no_member "chrono") text
  || re_search (pat_error "chrono") text.

Definition thread_matched (text : pystr) : bool :=
  re_search (pat_no_member "this_thread") text
  || re_search (pat_error "this_thread") text
  || (re_search pat_ns_ascii text || re_search pat_ns_curly text).

(** A run starts from an empty trace. *)
Definition run (w : World) (task workspace : pystr) (engine : EngineClient)
               (logs_root : pystr) : result pyvalue * trace :=
  run_workflow w task workspace engine logs_root [].

Definition run_id_of (w : World) : pystr := str_of_int (time_ms w).

Definition artifact (w : World) (logs_root : pystr) (name : string) : pystr :=
  path_join (path_join logs_root (run_id_of w)) (str name).

Definition the_build (workspace : pystr) : event :=
  RunCmd [str "./build.sh"] workspace 60.

(** What every run does up to and including its first build. *)
Definition until_first_build (w : World) (task workspace logs_root : pystr)
  : trace :=
  [ Mkdir (path_join logs_root (run_id_of w));
    WriteText (artifact w logs_root "task.txt") (PStr task);
    WriteText (artifact w logs_root "plan.json")
              (PList (map PStr (_plan task)));
    the_build workspace ].

(** The [n]-th build of the run ends in time, with result [b]. *)
Definition build_completes (w : World) (n : nat) (b : BuildResult) : Prop :=
  exists after_ms proc,
    build_sh w n = Exits after_ms proc /\ after_ms <= 60000 /\
    b = {| code := returncode proc; build_stdout := stdout proc;
           build_stderr := stderr proc; cmd := [str "./build.sh"] |}.

(** The [n]-th build of the run is still running after 60 seconds. *)
Definition build_times_out (w : World) (n : nat) : Prop :=
  match build_sh w n with
  | Exits after_ms _ => 60000 < after_ms
  | Hangs => True
  end.

Definition search_args (workspace : pystr) : list pystr :=
  [str "search-text"; str "--root"; workspace; str "--query"; str "std::";
   str "--topk"; str_of_int 5; str "--max-bytes"; str_of_int 200000].

Definition read_args (workspace : pystr) : list pystr :=
  [str "read-file"; str "--path"; path_join workspace (str "main.cpp");
   str "--max-bytes"; str_of_int 200000].

Definition apply_args (w : World) (workspace logs_root : pystr) : list pystr :=
  [str "apply-edits"; str "--root"; workspace;
   str "--edits-json"; artifact w logs_root "edits.json"].

(** [EngineClient._run] on [args], without the trace. *)
Definition answer (w : World) (engine : EngineClient) (args : list pystr)
  : result pyvalue :=
  run_result w (engine_cli w (engine_path engine :: args)) args.

(** A verdict that reports the error kind [kind]. *)
Definition reports (kind : string) (r : result pyvalue) : Prop :=
  exists d, r = inr (PDict d) /\
            dict_lookup d (str "ok") = Some (PBool false) /\
            dict_lookup d (str "error") = Some (PStr (str kind)).

Definition engine_calls (tr : trace) : nat :=
  List.length (filter is_run_engine tr).

(** The verdicts of lines 194 and 196-202. *)
Definition still_failing_verdict (w : World) (build2 : BuildResult) : pyvalue :=
  PDict [ (str "ok", PBool false); (str "run_id", PStr (run_id_of w));
          (str "error", PStr (str "still_failing"));
          (str "build", build_json build2) ].

Definition fixed_verdict (w : World) (added : list pystr)
                         (snapshot_id : pyvalue) : pyvalue :=
  PDict [ (str "ok", PBool true); (str "run_id", PStr (run_id_of w));
          (str "fixed", PStr (str "missing_include"));
          (str "added_includes", PList (map PStr added));
          (str "snapshot_id", snapshot_id) ].

(* ================================================================= *)
(** * Scenarios

    Concrete worlds on which the statements are exercised.  The engine's
    answers are JSON texts; [json.loads] is given on exactly those texts. *)

(** A JSON string token: the text between double quotes. *)
Definition quoted (s : string) : pystr := [34%N] ++ str s ++ [34%N].

Definition exits_with (rc : Z) (out err : pystr) : CompletedProcess :=
  {| returncode := rc; stdout := out; stderr := err |}.

Fixpoint assoc (table : list (pystr * pyvalue)) (s : pystr) : option pyvalue :=
  match table with
  | [] => None
  | (k, v) :: rest => if pystr_eqb k s then Some v else assoc rest s
  end.

(** The engine answers by sub-command. *)
Definition scenario (builds : list outcome)
    (search read apply : CompletedProcess)
    (parses : list (pystr * pyvalue)) : World :=
  {| time_ms := 1700000000000;
     build_sh := fun n => nth n builds Hangs;
     engine_cli := fun argv =>
       match argv with
       | _ :: sub :: _ =>
           if pystr_eqb sub (str "search-text") then search
           else if pystr_eqb sub (str "read-file") then read
           else apply
       | _ => exits_with 2 [] []
       end;
     json_loads := assoc parses |}.

(** [{"ok": true, "matches": []}] *)
Definition search_text_out : pystr :=
  str "{" ++ quoted "ok" ++ str ": true, " ++ quoted "matches" ++ str ": []}".

Definition search_obj : pyvalue :=
  PDict [ (str "ok", PBool true); (str "matches", PList []) ].

(** [{"ok": true, "snapshot_id": "s1"}] *)
Definition apply_text_out : pystr :=
  str "{" ++ quoted "ok" ++ str ": true, " ++ quoted "snapshot_id"
    ++ str ": " ++ quoted "s1" ++ str "}".

Definition apply_obj : pyvalue :=
  PDict [ (str "ok", PBool true); (str "snapshot_id", PStr (str "s1")) ].

(** [{"ok": true, "content": BODY}], with [BODY] a JSON string token. *)
Definition read_text_out (body : string) : pystr :=
  str "{" ++ quoted "ok" ++ str ": true, " ++ quoted "content" ++ str ": "
    ++ quoted body ++ str "}".

Definition read_obj (content : pystr) : pyvalue :=
  PDict [ (str "ok", PBool true); (str "content", PStr content) ].

Definition chrono_error : pystr :=
  str "main.cpp:4:8: error: 'chrono' is not a member of 'std'".

Definition thread_error : pystr :=
  str "main.cpp:5:8: error: 'this_thread' is not a member of 'std'".

Definition linker_error : pystr :=
  str "ld: undefined reference to `helper()'".

Definition build_fails (err : pystr) : outcome :=
  Exits 1500 (exits_with 1 [] err).

Definition build_passes : outcome := Exits 1500 (exits_with 0 [] []).

Definition demo_engine : EngineClient := {| engine_path := str "engine_cli" |}.
Definition demo_task : pystr := str "fix the build".
Definition demo_workspace : pystr := str "ws".
Definition demo_logs : pystr := str "logs".

(** A source file without its [<chrono>] include; JSON writes the line
    feed as backslash n. *)
Definition source_text : pystr :=
  str "#include <iostream>" ++ [LF]
    ++ str "int main() { std::chrono::seconds s(1); }" ++ [LF].

Definition source_json : string :=
  "#include <iostream>\nint main() { std::chrono::seconds s(1); }\n".

(** Scenario A: the build passes at once. *)
Definition world_build_ok : World :=
  scenario [build_passes] (exits_with 0 [] []) (exits_with 0 [] [])
           (exits_with 0 [] []) [].

(** Scenario C: a failure that is not about a missing declaration. *)
Definition world_unsupported : World :=
  scenario [build_fails linker_error] (exits_with 0 [] [])
           (exits_with 0 [] []) (exits_with 0 [] []) [].

(** The first build never ends. *)
Definition world_build_hangs : World :=
  scenario [Hangs] (exits_with 0 [] []) (exits_with 0 [] [])
           (exits_with 0 [] []) [].

(** Scenario B with a chosen second build. *)
Definition world_patched (second : outcome) : World :=
  scenario [build_fails chrono_error; second]
    (exits_with 0 search_text_out [])
    (exits_with 0 (read_text_out source_json) [])
    (exits_with 0 apply_text_out [])
    [ (search_text_out, search_obj);
      (read_text_out source_json, read_obj source_text);
      (apply_text_out, apply_obj) ].

(** Scenario D: the diagnostic names [this_thread], the file already
    includes [<thread>]. *)
Definition thread_source_json : string := "#include <thread>\nint main() {}\n".

Definition thread_source : pystr :=
  str "#include <thread>" ++ [LF] ++ str "int main() {}" ++ [LF].

Definition world_already_present : World :=
  scenario [build_fails thread_error]
    (exits_with 0 search_text_out [])
    (exits_with 0 (read_text_out thread_source_json) [])
    (exits_with 0 apply_text_out [])
    [ (search_text_out, search_obj);
      (read_text_out thread_source_json, read_obj thread_source) ].

(** The target file is empty. *)
Definition world_empty_file : World :=
  scenario [build_fails chrono_error; build_passes]
    (exits_with 0 search_text_out [])
    (exits_with 0 (read_text_out "") [])
    (exits_with 0 apply_text_out [])
    [ (search_text_out, search_obj);
      (read_text_out "", read_obj []);
      (apply_text_out, apply_obj) ].

(** The verdict of line 155. *)
Definition already_present_verdict (w : World) : pyvalue :=
  PDict [ (str "ok", PBool false); (str "run_id", PStr (run_id_of w));
          (str "error", PStr (str "includes_already_present")) ].

(** The trace of a run that stops after reading the target file. *)
Definition until_read (w : World) (task workspace logs_root : pystr)
    (engine : EngineClient) (build : BuildResult) (search : pyvalue) : trace :=
  until_first_build w task workspace logs_root ++
  [ WriteText (artifact w logs_root "build_0.json") (build_json build);
    RunEngine (engine_path engine :: search_args workspace);
    WriteText (artifact w logs_root "retrieve.json")
              (PDict [ (str "search", search) ]);
    RunEngine (engine_path engine :: read_args workspace) ].

(** The answers of [EngineClient._run] for the three kinds of failure. *)
Definition engine_failed_answer (proc : CompletedProcess) (args : list pystr)
  : pyvalue :=
  PDict [ (str "ok", PBool false);
          (str "error", PStr (str "engine_failed"));
          (str "stderr", PStr (stderr proc));
          (str "args", PList (map PStr args)) ].

Definition invalid_json_answer (proc : CompletedProcess) (args : list pystr)
  : pyvalue :=
  PDict [ (str "ok", PBool false);
          (str "error", PStr (str "engine_invalid_json"));
          (str "stdout", PStr (stdout proc));
          (str "stderr", PStr (stderr proc));
          (str "args", PList (map PStr args)) ].

(** [{"ok": true, "error": "disk_full"}]: an answer that claims success and
    still carries an error of its own. *)
Definition mixed_text_out : pystr :=
  str "{" ++ quoted "ok" ++ str ": true, " ++ quoted "error" ++ str ": "
    ++ quoted "disk_full" ++ str "}".

Definition mixed_obj : pyvalue :=
  PDict [ (str "ok", PBool true); (str "error", PStr (str "disk_full")) ].

(** An engine whose apply step exits with 3 although its answer claims
    success. *)
Definition world_odd_engine : World :=
  scenario [] (exits_with 0 [] []) (exits_with 0 [] [])
    (exits_with 3 mixed_text_out [])
    [ (mixed_text_out, mixed_obj); (apply_text_out, apply_obj) ].

(** A string without any line boundary in it. *)
Definition one_line (l : pystr) : Prop :=
  forallb (fun c => negb (is_linebreak c)) l = true.

(** The results [_run_cmd] makes of the scenario builds. *)
Definition passed_build : BuildResult :=
  {| code := 0; build_stdout := []; build_stderr := [];
     cmd := [str "./build.sh"] |}.

Definition failed_build (err : pystr) : BuildResult :=
  {| code := 1; build_stdout := []; build_stderr := err;
     cmd := [str "./build.sh"] |}.

Definition demo_run (w : World) : result pyvalue * trace :=
  run w demo_task demo_workspace demo_engine demo_logs.

(* ================================================================= *)
(** * Further vocabulary: the whole run *)

(** The verdicts of lines 143 and 186. *)
Definition read_failed_verdict (w : World) (file_payload : pyvalue)
  : pyvalue :=
  PDict [ (str "ok", PBool false); (str "run_id", PStr (run_id_of w));
          (str "error", PStr (str "read_file_failed"));
          (str "detail", file_payload) ].

Definition apply_failed_verdict (w : World) (apply_res : pyvalue) : pyvalue :=
  PDict [ (str "ok", PBool false); (str "run_id", PStr (run_id_of w));
          (str "error", PStr (str "apply_failed"));
          (str "detail", apply_res) ].

(** The error kinds [run_workflow] returns. *)
Definition error_kinds : list pystr :=
  [ str "unsupported_build_error"; str "read_file_failed";
    str "includes_already_present"; str "apply_failed";
    str "still_failing" ].

(** The engine requests of a full run, in order. *)
Definition engine_sequence (w : World) (workspace logs_root : pystr)
    (engine : EngineClient) : trace :=
  [ RunEngine (engine_path engine :: search_args workspace);
    RunEngine (engine_path engine :: read_args workspace);
    RunEngine (engine_path engine :: apply_args w workspace logs_root) ].

Definition is_prefix {A} (a b : list A) : Prop := exists rest, b = a ++ rest.

(** What a caller may rely on in a verdict: a dictionary with the run
    identifier and a boolean [ok]; a failure names one of [error_kinds]. *)
Definition well_formed_verdict (w : World) (v : pyvalue) : Prop :=
  exists d,
    v = PDict d /\
    dict_lookup d (str "run_id") = Some (PStr (run_id_of w)) /\
    (dict_lookup d (str "ok") = Some (PBool true) /\
       dict_lookup d (str "error") = None
     \/ dict_lookup d (str "ok") = Some (PBool false) /\
        exists kind, In kind error_kinds /\
                     dict_lookup d (str "error") = Some (PStr kind)).

(** The last build a trace holds ended in time with exit code 0. *)
Definition last_build_passed (w : World) (tr : trace) : Prop :=
  exists n b, builds_run tr = S n /\ build_completes w n b /\ code b = 0.

(** [{"ok": false, "error": "bad_range"}] *)
Definition rejected_text_out : pystr :=
  str "{" ++ quoted "ok" ++ str ": false, " ++ quoted "error" ++ str ": "
    ++ quoted "bad_range" ++ str "}".

Definition rejected_obj : pyvalue :=
  PDict [ (str "ok", PBool false); (str "error", PStr (str "bad_range")) ].

(** [{"ok": true}] and [{"ok": true, "content": null}]: read answers
    without a usable content. *)
Definition bare_ok_text_out : pystr :=
  str "{" ++ quoted "ok" ++ str ": true}".

Definition bare_ok_obj : pyvalue := PDict [ (str "ok", PBool true) ].

Definition null_content_text_out : pystr :=
  str "{" ++ quoted "ok" ++ str ": true, " ++ quoted "content"
    ++ str ": null}".

Definition null_content_obj : pyvalue :=
  PDict [ (str "ok", PBool true); (str "content", PNone) ].

(** The engine fails on the read request without printing anything. *)
Definition world_read_fails : World :=
  scenario [build_fails chrono_error]
    (exits_with 0 search_text_out [])
    (exits_with 1 [] (str "cannot open main.cpp"))
    (exits_with 0 apply_text_out [])
    [ (search_text_out, search_obj) ].

(** Scenario E: the engine rejects the edit. *)
Definition world_apply_rejected : World :=
  scenario [build_fails chrono_error; build_passes]
    (exits_with 0 search_text_out [])
    (exits_with 0 (read_text_out source_json) [])
    (exits_with 1 rejected_text_out [])
    [ (search_text_out, search_obj);
      (read_text_out source_json, read_obj source_text);
      (rejected_text_out, rejected_obj) ].

(** The read answer claims success and has no content. *)
Definition world_no_content : World :=
  scenario [build_fails chrono_error]
    (exits_with 0 search_text_out [])
    (exits_with 0 bare_ok_text_out [])
    (exits_with 0 apply_text_out [])
    [ (search_text_out, search_obj); (bare_ok_text_out, bare_ok_obj) ].

(** The read answer claims success and its content is [null]. *)
Definition world_null_content : World :=
  scenario [build_fails chrono_error]
    (exits_with 0 search_text_out [])
    (exits_with 0 null_content_text_out [])
    (exits_with 0 apply_text_out [])
    [ (search_text_out, search_obj);
      (null_content_text_out, null_content_obj) ].


(** Objects on which [x in v] raises. *)
Definition not_a_container (v : pyvalue) : Prop :=
  match v with
  | PStr _ | PList _ | PDict _ => False
  | _ => True
  end.





(* ================================================================= *)
(** * [agent/cli.py]

    [main] after [parser.parse_args()]: the parsed arguments are given;
    [resolve] stands for [Path.resolve].  The text written to the standard
    output is logged as a [WriteText] on the stream's name. *)

Module cli.



End cli.




(* ================================================================= *)
(** * Properties *)

(** ** The Diagnostic Extractor *)

Lemma pystr_eqb_eq (a b : pystr) : pystr_eqb a b = true <-> a = b.
Proof.
  unfold pystr_eqb. destruct (list_eq_dec N.eq_dec a b); split; congruence.
Qed.

Lemma pystr_eqb_refl (a : pystr) : pystr_eqb a a = true.
Proof. now apply pystr_eqb_eq. Qed.

Lemma pystr_eqb_neq (a b : pystr) : pystr_eqb a b = false <-> a <> b.
Proof.
  unfold pystr_eqb. destruct (list_eq_dec N.eq_dec a b); split; congruence.
Qed.

Lemma occurrences_cons (dep h : pystr) (l : list pystr) :
  occurrences dep (h :: l) =
  ((if pystr_eqb h dep then 1 else 0) + occurrences dep l)%nat.
Proof.
  unfold occurrences, pystr_eqb. simpl.
  destruct (list_eq_dec N.eq_dec h dep); reflexivity.
Qed.

Lemma extract_closed_form (text : pystr) :
  _extract_missing_includes text =
  (if chrono_matched text then [str "chrono"] else [])
    ++ (if thread_matched text then [str "thread"] else []).
Proof.
  unfold _extract_missing_includes, chrono_matched, thread_matched.
  destruct (re_search (pat_no_member "chrono") text),
           (re_search (pat_error "chrono") text),
           (re_search (pat_no_member "this_thread") text),
           (re_search (pat_error "this_thread") text),
           (re_search pat_ns_ascii text),
           (re_search pat_ns_curly text); reflexivity.
Qed.

Lemma has_signature_for_split (dep text : pystr) :
  has_signature_for dep text =
  (pystr_eqb (str "chrono") dep && chrono_matched text)
  || (pystr_eqb (str "thread") dep && thread_matched text).
Proof.
  unfold has_signature_for, signatures, existsb, chrono_matched,
    thread_matched.
  cbn [fst snd].
  destruct (pystr_eqb (str "chrono") dep), (pystr_eqb (str "thread") dep);
    cbn [andb orb]; rewrite ?orb_false_r; try reflexivity.
  - rewrite !orb_assoc. reflexivity.
  - rewrite !orb_assoc. reflexivity.
Qed.

(** C7: whatever the build error text, a dependency occurs in the
    extractor's result exactly once when the text carries one of its
    signatures (however many of them, however often) and not at all
    otherwise; in particular never twice. *)
Theorem extract_each_dependency_once (text dep : pystr) :
  occurrences dep (_extract_missing_includes text) =
  if has_signature_for dep text then 1%nat else 0%nat.
Proof.
  rewrite extract_closed_form, has_signature_for_split.
  destruct (pystr_eqb (str "chrono") dep) eqn:Hc,
           (pystr_eqb (str "thread") dep) eqn:Ht.
  - apply pystr_eqb_eq in Hc, Ht. rewrite <- Hc in Ht. discriminate.
  - destruct (chrono_matched text), (thread_matched text);
      cbn [app andb orb]; rewrite ?occurrences_cons, ?Hc, ?Ht; reflexivity.
  - destruct (chrono_matched text), (thread_matched text);
      cbn [app andb orb]; rewrite ?occurrences_cons, ?Hc, ?Ht; reflexivity.
  - destruct (chrono_matched text), (thread_matched text);
      cbn [app andb orb]; rewrite ?occurrences_cons, ?Hc, ?Ht; reflexivity.
Qed.

(** ** Runs of the pipeline *)

(** *** Stepping through a run *)

Lemma bind_inr {A B} (m : M A) (f : A -> M B) (tr tr' : trace) (a : A) :
  m tr = (inr a, tr') -> bind m f tr = f a tr'.
Proof. unfold bind. intros ->. reflexivity. Qed.

Lemma bind_inl {A B} (m : M A) (f : A -> M B) (tr tr' : trace) (e : exn) :
  m tr = (inl e, tr') -> bind m f tr = (inl e, tr').
Proof. unfold bind. intros ->. reflexivity. Qed.

Lemma bind_emit {B} (e : event) (f : unit -> M B) (tr : trace) :
  bind (emit e) f tr = f tt (tr ++ [e]).
Proof. reflexivity. Qed.

Lemma bind_lift {A B} (r : result A) (f : A -> M B) (tr : trace) :
  bind (lift r) f tr =
  match r with inr a => f a tr | inl e => (inl e, tr) end.
Proof. unfold bind, lift. destruct r; reflexivity. Qed.

Lemma run_cmd_completes (w : World) (n : nat) (b : BuildResult)
    (workspace : pystr) (tr : trace) :
  build_completes w n b ->
  builds_run tr = n ->
  _run_cmd w [str "./build.sh"] workspace 60 tr =
    (inr b, tr ++ [the_build workspace]).
Proof.
  intros (ms & proc & Hb & Hms & ->) Hn.
  unfold _run_cmd, bind, get_trace, emit. rewrite Hn, Hb.
  replace (ms <=? 1000 * 60) with true by (symmetry; apply Z.leb_le; lia).
  reflexivity.
Qed.

Lemma run_cmd_times_out (w : World) (n : nat) (workspace : pystr)
    (tr : trace) :
  build_times_out w n ->
  builds_run tr = n ->
  _run_cmd w [str "./build.sh"] workspace 60 tr =
    (inl TimeoutExpired, tr ++ [the_build workspace]).
Proof.
  unfold build_times_out. intros Hout Hn.
  unfold _run_cmd, bind, get_trace, emit. rewrite Hn.
  destruct (build_sh w n) as [ms proc|]; [|reflexivity].
  replace (ms <=? 1000 * 60) with false by (symmetry; apply Z.leb_gt; lia).
  reflexivity.
Qed.

(** A build either ends in time or is cut off: nothing else can happen. *)
Lemma build_completes_or_times_out (w : World) (n : nat) :
  (exists b, build_completes w n b) \/ build_times_out w n.
Proof.
  unfold build_completes, build_times_out.
  destruct (build_sh w n) as [ms proc|]; [|now right].
  destruct (Z_le_gt_dec ms 60000).
  - left. eexists. exists ms, proc. repeat split. assumption.
  - right. lia.
Qed.

Lemma engine_call (w : World) (self : EngineClient) (args : list pystr)
    (tr : trace) :
  _run w self args tr =
    (run_result w (engine_cli w (engine_path self :: args)) args,
     tr ++ [RunEngine (engine_path self :: args)]).
Proof. reflexivity. Qed.

Ltac exec :=
  repeat (rewrite bind_emit; cbn [app]).

Ltac build_ok H :=
  erewrite bind_inr by (apply run_cmd_completes with (1 := H); reflexivity);
  exec.

(** C4: when the first build exits with code 0 the run returns the success
    verdict with message "build already OK"; its trace stops at the
    [build_0.json] record: nothing else runs, no edit or apply record is
    written. *)
Theorem build_already_ok (w : World) (task workspace logs_root : pystr)
    (engine : EngineClient) (b : BuildResult) :
  build_completes w 0 b ->
  code b = 0 ->
  run w task workspace engine logs_root =
    (inr (PDict [ (str "ok", PBool true); (str "run_id", PStr (run_id_of w));
                  (str "message", PStr (str "build already OK")) ]),
     until_first_build w task workspace logs_root
       ++ [WriteText (artifact w logs_root "build_0.json") (build_json b)]).
Proof.
  intros Hbuild Hcode. unfold run, run_workflow. exec.
  build_ok Hbuild.
  rewrite Hcode. reflexivity.
Qed.

(** C3: when the first build fails and its error text carries no recognized
    signature, the extractor returns the empty list and the run ends with
    [unsupported_build_error] and the first build's record; its trace stops
    at the [build_0.json] record: no engine call, no [edits.json]. *)
Theorem unsupported_build_error (w : World) (task workspace logs_root : pystr)
    (engine : EngineClient) (b : BuildResult) :
  build_completes w 0 b ->
  code b <> 0 ->
  has_signature (build_stderr b) = false ->
  _extract_missing_includes (build_stderr b) = [] /\
  run w task workspace engine logs_root =
    (inr (PDict [ (str "ok", PBool false); (str "run_id", PStr (run_id_of w));
                  (str "error", PStr (str "unsupported_build_error"));
                  (str "build", build_json b) ]),
     until_first_build w task workspace logs_root
       ++ [WriteText (artifact w logs_root "build_0.json") (build_json b)]).
Proof.
  intros Hbuild Hcode Hsig.
  assert (Hnone : _extract_missing_includes (build_stderr b) = []).
  { rewrite extract_closed_form.
    unfold has_signature, signatures, existsb in Hsig. cbn [fst] in Hsig.
    rewrite orb_false_r in Hsig.
    unfold chrono_matched, thread_matched.
    repeat (apply orb_false_elim in Hsig;
            let H := fresh in destruct Hsig as [H Hsig]; rewrite H).
    rewrite Hsig. reflexivity. }
  split; [exact Hnone|].
  unfold run, run_workflow. exec.
  build_ok Hbuild.
  apply Z.eqb_neq in Hcode. rewrite Hcode, Hnone. reflexivity.
Qed.

(** *** The requests of a run and the answers the client gives to them *)

Lemma bind_engine {B} (w : World) (self : EngineClient) (args : list pystr)
    (f : pyvalue -> M B) (tr : trace) :
  bind (_run w self args) f tr =
  match answer w self args with
  | inr v => f v (tr ++ [RunEngine (engine_path self :: args)])
  | inl e => (inl e, tr ++ [RunEngine (engine_path self :: args)])
  end.
Proof.
  unfold bind. rewrite engine_call. unfold answer.
  destruct (run_result _ _ _); reflexivity.
Qed.

Lemma bind_run_cmd {B} (w : World) (workspace : pystr)
    (f : BuildResult -> M B) (tr : trace) :
  (exists b, build_completes w (builds_run tr) b /\
     bind (_run_cmd w [str "./build.sh"] workspace 60) f tr =
       f b (tr ++ [the_build workspace]))
  \/ (build_times_out w (builds_run tr) /\
      bind (_run_cmd w [str "./build.sh"] workspace 60) f tr =
        (inl TimeoutExpired, tr ++ [the_build workspace])).
Proof.
  destruct (build_completes_or_times_out w (builds_run tr)) as [[b Hb]|Hout].
  - left. exists b. split; [assumption|].
    apply bind_inr. now apply run_cmd_completes with (n := builds_run tr).
  - right. split; [assumption|].
    apply bind_inl. now apply run_cmd_times_out with (n := builds_run tr).
Qed.

Lemma completes_not_times_out (w : World) (n : nat) (b : BuildResult) :
  build_completes w n b -> build_times_out w n -> False.
Proof.
  unfold build_completes, build_times_out.
  intros (ms & proc & -> & Hms & _). lia.
Qed.

(** One step of a run, whichever way it goes. *)
Ltac step :=
  match goal with
  | |- context [bind (emit _) _ _] => rewrite bind_emit; cbn [app]
  | |- context [bind (lift ?r) _ _] =>
      rewrite bind_lift; destruct r eqn:?
  | |- context [bind (_run_cmd ?w _ ?ws _) ?f ?tr] =>
      let b := fresh "b" in
      let Hb := fresh "Hbuild" in
      let Hr := fresh "Hrun" in
      destruct (bind_run_cmd w ws f tr) as [(b & Hb & Hr)|(Hb & Hr)];
      rewrite Hr; clear Hr; cbn [app];
      cbn [builds_run filter is_run_cmd the_build List.length] in Hb
  | |- context [bind (_run ?w ?e ?args) _ _] =>
      rewrite bind_engine; cbn [app]; destruct (answer w e args) eqn:?
  | |- context [if ?c then _ else _] => destruct c eqn:?
  | |- context [match ?c with PStr _ => _ | _ => _ end] => destruct c eqn:?
  end.

Ltac start_run :=
  unfold run, run_workflow, search_text, read_file, apply_edits.

(** Name the records of the run directory. *)
Ltac fold_artifacts :=
  repeat match goal with
         | |- context [str_of_int (time_ms ?w)] => fold (run_id_of w)
         end;
  repeat match goal with
         | |- context [path_join (path_join ?root (run_id_of ?w)) (str ?n)] =>
             fold (artifact w root n)
         end.

(** ** Builds that run out of time *)

(** C1, as the code has it: when a build that the run starts is still
    running after its 60 seconds, [subprocess.run] raises [TimeoutExpired];
    nothing catches it, so the run ends with that exception right after the
    build and returns no verdict. *)
Theorem build_timeout_raises (w : World) (task workspace logs_root : pystr)
    (engine : EngineClient) (n : nat) :
  (n < builds_run (snd (run w task workspace engine logs_root)))%nat ->
  build_times_out w n ->
  fst (run w task workspace engine logs_root) = inl TimeoutExpired /\
  last (snd (run w task workspace engine logs_root)) (Mkdir [])
    = the_build workspace.
Proof.
  start_run. intros Hn Hout. revert Hn.
  repeat step;
    cbn [ret raise fst snd builds_run filter is_run_cmd the_build
         List.length last];
    intros Hn;
    try (split; reflexivity);
    exfalso; destruct n as [|[|n]]; try lia;
    eauto using completes_not_times_out.
Qed.

(** ** After a successful apply *)

Lemma artifact_inj (w : World) (logs_root : pystr) (a b : string) :
  artifact w logs_root a = artifact w logs_root b -> str a = str b.
Proof.
  unfold artifact, path_join. intros H.
  apply app_inv_head in H. now apply app_inv_head in H.
Qed.

Lemma build_completes_unique (w : World) (n : nat) (b b' : BuildResult) :
  build_completes w n b -> build_completes w n b' -> b = b'.
Proof.
  intros (ms & proc & H & _ & ->) (ms' & proc' & H' & _ & ->).
  rewrite H in H'. now inversion H'.
Qed.

Lemma py_get_any_key (v x : pyvalue) (k k' : pystr) :
  py_get v k = inr x -> exists y, py_get v k' = inr y.
Proof. destruct v; cbn; try discriminate. eauto. Qed.

(** Which record of the run directory an event writes, if any. *)
Ltac other_artifact H :=
  apply (f_equal (fun e => match e with
                           | WriteText file _ => file
                           | _ => []
                           end)) in H;
  cbn beta iota in H;
  first [ apply artifact_inj in H; discriminate H | discriminate H ].

Ltac not_this_event H :=
  first [ discriminate H | unfold the_build in H; discriminate H
        | other_artifact H ].

Ltac find_written H :=
  cbn [In ret raise snd fst] in H;
  repeat match type of H with
         | _ \/ _ => destruct H as [H|H]
         | False => destruct H
         end;
  try (not_this_event H).

(** C2: in a run that wrote an [apply.json] whose [ok] is true, exactly two
    builds and three engine calls (search, read, apply) are made.  When the
    second build ends in time it is the last thing the run does (its record
    [build_1.json] closes the trace) and its exit code alone picks the
    verdict: 0 gives success with the dependencies that the submitted edit
    added and the [snapshot_id] of the apply answer; anything else gives
    [still_failing] with the second build's result. *)
Theorem second_build_decides (w : World) (task workspace logs_root : pystr)
    (engine : EngineClient) (apply_res ok : pyvalue) :
  In (WriteText (artifact w logs_root "apply.json") apply_res)
     (snd (run w task workspace engine logs_root)) ->
  py_get apply_res (str "ok") = inr ok ->
  truthy ok = true ->
  builds_run (snd (run w task workspace engine logs_root)) = 2%nat /\
  engine_calls (snd (run w task workspace engine logs_root)) = 3%nat /\
  forall build2, build_completes w 1 build2 ->
    exists text added snapshot_id,
      In (WriteText (artifact w logs_root "edits.json")
                    (edits_json [whole_file_edit text added]))
         (snd (run w task workspace engine logs_root)) /\
      py_get apply_res (str "snapshot_id") = inr snapshot_id /\
      last (snd (run w task workspace engine logs_root)) (Mkdir []) =
        WriteText (artifact w logs_root "build_1.json") (build_json build2) /\
      fst (run w task workspace engine logs_root) =
        inr (if code build2 =? 0
             then fixed_verdict w added snapshot_id
             else still_failing_verdict w build2).
Proof.
  intros Happly Hok Htruthy. revert Happly.
  start_run. fold_artifacts.
  repeat step; intros Happly; find_written Happly.
  all: injection Happly as <-.
  all: try congruence.
  all: match goal with
       | H : py_get ?p _ = inr ?v |- _ =>
           assert (ok = v) by congruence; subst v
       end.
  all: try (rewrite Htruthy in *; discriminate).
  all: cbn [ret raise fst snd builds_run engine_calls filter is_run_cmd
            is_run_engine the_build List.length last].
  all: split; [reflexivity|split; [reflexivity|]]; intros build2 Hb2.
  all: try (exfalso; eauto using completes_not_times_out; fail).
  all: match goal with
       | H : build_completes _ 1 ?b |- _ =>
           assert (build2 = b) by eauto using build_completes_unique;
           subst build2
       end.
  all: match goal with
       | H : negb (code ?b =? 0) = _ |- _ =>
           destruct (code b =? 0); try discriminate H
       end.
  all: destruct (@py_get_any_key _ _ _ (str "snapshot_id") Hok) as [sid Hsid];
    try congruence.
  all: eexists _, _, sid;
    (split; [cbn [In]; do 8 right; left; reflexivity|]);
    repeat split; try exact Hsid.
  unfold fixed_verdict. congruence.
Qed.

(** ** The content re-scan *)

Lemma drop_declared_sound (content : pyvalue) (needed final : list pystr) :
  drop_declared content needed = inr final ->
  forall h, In h final ->
    In h needed /\ py_in (include_line h) content = inr false.
Proof.
  revert final. induction needed as [|x rest IH]; cbn [drop_declared].
  - intros final [= <-] h [].
  - intros final H h Hin.
    destruct (py_in (include_line x) content) as [e|present] eqn:Hx;
      [discriminate|].
    destruct (drop_declared content rest) as [e|rest'] eqn:Hrest;
      [discriminate|].
    injection H as <-. specialize (IH rest' eq_refl).
    destruct present.
    + destruct (IH h Hin). split; [now right|assumption].
    + destruct Hin as [<-|Hin].
      * split; [now left|assumption].
      * destruct (IH h Hin). split; [now right|assumption].
Qed.

Lemma rescan_sound (content : pyvalue) (needed final : list pystr) :
  rescan content needed = inr final ->
  forall h, In h final -> py_in (include_line h) content = inr false.
Proof.
  unfold rescan. intros H h Hin.
  destruct (scan_usage _ _ content needed) as [e|n1]; [discriminate|].
  destruct (scan_usage _ _ content n1) as [e|n2]; [discriminate|].
  now apply (drop_declared_sound _ _ H).
Qed.

Lemma is_empty_nil {A} (l : list A) : is_empty l = true <-> l = [].
Proof. destruct l; cbn; split; intros H; try reflexivity; discriminate H. Qed.

Ltac unify_results :=
  repeat match goal with
         | H : inr _ = inr _ |- _ => injection H as H; try subst
         | H : inl _ = inr _ |- _ => discriminate H
         | H : inr _ = inl _ |- _ => discriminate H
         | H1 : ?t = inr _, H2 : ?t = _ |- _ => rewrite H1 in H2
         end.

(** C8: take a run that reads the target file and gets its content.  The
    list that comes out of the re-scan holds no dependency whose include
    line occurs in that content.  If the list is empty the run returns
    [includes_already_present] and stops after the read: no [edits.json], no
    apply.  Otherwise the edit written for the apply step is built from
    exactly this list. *)
Theorem rescan_excludes_declared (w : World)
    (task workspace logs_root : pystr) (engine : EngineClient)
    (build : BuildResult) (payload ok content : pyvalue)
    (final : list pystr) :
  build_completes w 0 build ->
  In (RunEngine (engine_path engine :: read_args workspace))
     (snd (run w task workspace engine logs_root)) ->
  answer w engine (read_args workspace) = inr payload ->
  py_get payload (str "ok") = inr ok ->
  truthy ok = true ->
  py_getitem payload (str "content") = inr content ->
  rescan content (_extract_missing_includes (build_stderr build)) = inr final ->
  (forall h, In h final -> py_in (include_line h) content = inr false) /\
  (final = [] ->
     exists search,
       run w task workspace engine logs_root =
         (inr (already_present_verdict w),
          until_read w task workspace logs_root engine build search)) /\
  (final <> [] ->
     forall text, content = PStr text ->
       In (WriteText (artifact w logs_root "edits.json")
                     (edits_json [whole_file_edit text final]))
          (snd (run w task workspace engine logs_root))).
Proof.
  intros Hbuild Hread Hpayload Hok Htruthy Hcontent Hfinal.
  split; [exact (rescan_sound _ _ Hfinal)|].
  revert Hread. start_run. fold_artifacts.
  fold (read_args workspace). fold (search_args workspace).
  repeat step; intros Hread; find_written Hread.
  all: repeat match goal with
       | H : build_completes _ 0 ?b |- _ =>
           assert (b = build) by eauto using build_completes_unique;
           subst b
       end.
  all: unify_results.
  all: try (rewrite Htruthy in *; discriminate).
  all: split; [intros Hnil|intros Hne text Htext].
  all: try (rewrite Hnil in *; discriminate).
  all: try (exfalso; apply Hne; now apply is_empty_nil).
  all: try (eexists; reflexivity).
  all: try discriminate Htext.
  all: try (injection Htext as <-); cbn [ret raise snd In]; auto 20.
Qed.

(** ** The engine client *)

Lemma dict_lookup_set_same (d : dict) (k : pystr) (v : pyvalue) :
  dict_lookup (dict_set d k v) k = Some v.
Proof.
  induction d as [|[k' v'] d IH]; cbn [dict_set dict_lookup].
  - now rewrite pystr_eqb_refl.
  - destruct (pystr_eqb k' k) eqn:E; cbn [dict_lookup]; rewrite E.
    + reflexivity.
    + exact IH.
Qed.

Lemma dict_lookup_set_other (d : dict) (k k' : pystr) (v : pyvalue) :
  k <> k' -> dict_lookup (dict_set d k v) k' = dict_lookup d k'.
Proof.
  intros Hne. induction d as [|[k0 v0] d IH]; cbn [dict_set dict_lookup].
  - apply pystr_eqb_neq in Hne. now rewrite Hne.
  - destruct (pystr_eqb k0 k) eqn:E; cbn [dict_lookup].
    + apply pystr_eqb_eq in E. subst k0.
      apply pystr_eqb_neq in Hne. now rewrite Hne.
    + now rewrite IH.
Qed.

Lemma ok_is_not_error : str "ok" <> str "error".
Proof. discriminate. Qed.

(** C9, as the code has it.  (1) A non-zero exit with blank output gives
    [engine_failed].  (2) Otherwise, output that [json.loads] rejects gives
    [engine_invalid_json].  (3) Otherwise, a non-zero exit whose object has
    [ok] equal to [True] gives the same object with [ok] set to [False] and
    with its own [error] when it has one, [engine_nonzero_exit] when it has
    none. *)
Theorem engine_failures_classified (w : World) (proc : CompletedProcess)
    (args : list pystr) :
  (returncode proc <> 0 -> strip_is_empty (stdout proc) = true ->
     run_result w proc args = inr (engine_failed_answer proc args)) /\
  ((returncode proc = 0 \/ strip_is_empty (stdout proc) = false) ->
     json_loads w (stdout proc) = None ->
     run_result w proc args = inr (invalid_json_answer proc args)) /\
  (returncode proc <> 0 -> strip_is_empty (stdout proc) = false ->
     forall d, json_loads w (stdout proc) = Some (PDict d) ->
       dict_lookup d (str "ok") = Some (PBool true) ->
       exists d', run_result w proc args = inr (PDict d') /\
         dict_lookup d' (str "ok") = Some (PBool false) /\
         dict_lookup d' (str "error") =
           Some (dict_get d (str "error") (PStr (str "engine_nonzero_exit")))).
Proof.
  unfold run_result. repeat split.
  - intros Hrc Hblank. apply Z.eqb_neq in Hrc. now rewrite Hrc, Hblank.
  - intros Hcase Hbad.
    replace (negb (returncode proc =? 0) && strip_is_empty (stdout proc))
      with false.
    + now rewrite Hbad.
    + destruct Hcase as [-> | ->]; [reflexivity|now rewrite andb_false_r].
  - intros Hrc Hout d Hparse Hok. apply Z.eqb_neq in Hrc.
    rewrite Hrc, Hout, Hparse. cbn [negb andb py_get].
    unfold dict_get at 1. rewrite Hok. cbn [is_True].
    eexists. split; [reflexivity|]. split.
    + rewrite dict_lookup_set_other by (intro H; now apply ok_is_not_error).
      apply dict_lookup_set_same.
    + rewrite dict_lookup_set_same. f_equal. unfold dict_get.
      now rewrite dict_lookup_set_other by exact ok_is_not_error.
Qed.

(** C9, as stated, fails: the engine exits with 3 and prints an object with
    [ok] true and an [error] of its own; the client keeps that error, the
    answer does not carry [engine_nonzero_exit]. *)
Lemma nonzero_exit_keeps_own_error :
  let proc := exits_with 3 mixed_text_out [] in
  returncode proc <> 0 /\
  json_loads world_odd_engine (stdout proc) = Some mixed_obj /\
  py_get mixed_obj (str "ok") = inr (PBool true) /\
  run_result world_odd_engine proc [str "apply-edits"] =
    inr (PDict [ (str "ok", PBool false);
                 (str "error", PStr (str "disk_full")) ]) /\
  ~ reports "engine_nonzero_exit"
      (run_result world_odd_engine proc [str "apply-edits"]).
Proof.
  cbv zeta. repeat split; try discriminate; try reflexivity.
  intros (d & Hd & _ & Herr).
  vm_compute in Hd. injection Hd as <-. vm_compute in Herr. discriminate.
Qed.

Lemma engine_failures_classified_witness :
  let proc := exits_with 3 apply_text_out [] in
  exists d', run_result world_odd_engine proc [str "apply-edits"] =
               inr (PDict d') /\
    dict_lookup d' (str "ok") = Some (PBool false) /\
    dict_lookup d' (str "error") = Some (PStr (str "engine_nonzero_exit")).
Proof.
  cbv zeta.
  destruct (engine_failures_classified world_odd_engine
              (exits_with 3 apply_text_out []) [str "apply-edits"])
    as (_ & _ & H).
  apply (H ltac:(discriminate) ltac:(reflexivity)
           [ (str "ok", PBool true); (str "snapshot_id", PStr (str "s1")) ]);
    reflexivity.
Defined.

(** ** The Patch Synthesizer *)

Lemma insert_position_from (lines : list pystr) (k acc : nat) :
  (forall line, In line lines -> startswith line (str "#include") = false) ->
  fold_left (fun insert_at il =>
               if startswith (snd il) (str "#include")
               then (fst il + 1)%nat else insert_at)
            (combine (seq k (List.length lines)) lines) acc = acc.
Proof.
  revert k acc. induction lines as [|line lines IH]; intros k acc Hno.
  - reflexivity.
  - cbn [List.length seq combine fold_left fst snd].
    rewrite (Hno line) by now left.
    apply IH. intros l Hl. apply Hno. now right.
Qed.

(** C10: when no line of the content starts with [#include], the insert
    position stays 0: the new include lines come first, in order, followed
    by all the original lines, and the replacement is that list joined with
    line feeds (plus the final line feed the content may have had). *)
Theorem no_include_inserts_at_top (content : pystr) (needed : list pystr) :
  (forall line, In line (splitlines content) ->
     startswith line (str "#include") = false) ->
  insert_position (splitlines content) = 0%nat /\
  new_lines_of (splitlines content) needed =
    map include_line needed ++ splitlines content /\
  replacement_of content needed =
    join [LF] (map include_line needed ++ splitlines content)
      ++ (if endswith_newline content then [LF] else []).
Proof.
  intros Hno.
  assert (H0 : insert_position (splitlines content) = 0%nat).
  { unfold insert_position, enumerate. now apply insert_position_from. }
  assert (Hnew : new_lines_of (splitlines content) needed =
                 map include_line needed ++ splitlines content).
  { unfold new_lines_of. rewrite H0. reflexivity. }
  repeat split; try assumption.
  unfold replacement_of. now rewrite Hnew.
Qed.

Lemma no_include_inserts_at_top_witness :
  replacement_of (str "int main() {}" ++ [LF]) [str "chrono"] =
    str "#include <chrono>" ++ [LF] ++ str "int main() {}" ++ [LF].
Proof.
  destruct (@no_include_inserts_at_top (str "int main() {}" ++ [LF])
              [str "chrono"]) as (_ & _ & ->).
  - intros line [<-|[]]. reflexivity.
  - reflexivity.
Defined.

(** *** Splitting what was joined *)

Lemma one_line_cons (c : N) (l : pystr) :
  one_line (c :: l) <-> is_linebreak c = false /\ one_line l.
Proof.
  unfold one_line. cbn [forallb]. rewrite andb_true_iff, negb_true_iff.
  reflexivity.
Qed.

Lemma one_line_app (a b : pystr) :
  one_line (a ++ b) <-> one_line a /\ one_line b.
Proof. unfold one_line. rewrite forallb_app, andb_true_iff. reflexivity. Qed.

Lemma splitlines_one_line_upto (n : nat) (s : pystr) :
  (List.length s <= n)%nat -> Forall one_line (splitlines s).
Proof.
  revert s. induction n as [|n IH]; intros [|c rest] Hlen;
    cbn [List.length] in Hlen; try (constructor; fail); try lia.
  cbn [splitlines].
  destruct (is_linebreak c) eqn:Hc.
  - constructor; [reflexivity|].
    destruct (N.eqb c CR); [|apply IH; lia].
    destruct rest as [|d rest']; [constructor|].
    cbn [List.length] in Hlen.
    destruct (N.eqb d LF); apply IH; cbn [List.length]; lia.
  - assert (Hrest : Forall one_line (splitlines rest)) by (apply IH; lia).
    destruct (splitlines rest) as [|l ls].
    + constructor; [|constructor]. apply one_line_cons. now split.
    + inversion Hrest; subst. constructor; [|assumption].
      apply one_line_cons. now split.
Qed.

(** The lines of [splitlines] hold no line boundary. *)
Lemma splitlines_one_line (s : pystr) : Forall one_line (splitlines s).
Proof. now apply splitlines_one_line_upto with (n := List.length s). Qed.

Lemma splitlines_line_then (l rest : pystr) :
  one_line l -> splitlines (l ++ LF :: rest) = l :: splitlines rest.
Proof.
  induction l as [|c l IH]; intros Hl.
  - reflexivity.
  - apply one_line_cons in Hl. destruct Hl as [Hc Hl].
    cbn [app splitlines]. rewrite Hc, (IH Hl). reflexivity.
Qed.

Lemma splitlines_single (l : pystr) :
  one_line l -> l <> [] -> splitlines l = [l].
Proof.
  induction l as [|c l IH]; intros Hl Hne; [congruence|].
  apply one_line_cons in Hl. destruct Hl as [Hc Hl].
  cbn [splitlines]. rewrite Hc.
  destruct l as [|d l]; [reflexivity|].
  rewrite IH; [reflexivity|assumption|discriminate].
Qed.

Lemma join_cons2 (sep x y : pystr) (ys : list pystr) :
  join sep (x :: y :: ys) = x ++ sep ++ join sep (y :: ys).
Proof. reflexivity. Qed.

(** Lines joined with line feeds and closed by one split back as they
    were. *)
Lemma splitlines_join_closed (ls : list pystr) :
  Forall one_line ls -> ls <> [] ->
  splitlines (join [LF] ls ++ [LF]) = ls.
Proof.
  induction ls as [|x [|y ys] IH]; intros Hls Hne; [congruence| |].
  - inversion Hls; subst. cbn [join].
    now rewrite splitlines_line_then.
  - inversion Hls; subst. rewrite join_cons2.
    rewrite <- !app_assoc. cbn [app].
    rewrite splitlines_line_then by assumption.
    rewrite IH; [reflexivity|assumption|discriminate].
Qed.

(** Without the closing line feed the last line must not be empty. *)
Lemma splitlines_join_open (ls : list pystr) :
  Forall one_line ls -> last ls [] <> [] ->
  splitlines (join [LF] ls) = ls.
Proof.
  induction ls as [|x [|y ys] IH]; intros Hls Hlast; [reflexivity| |].
  - inversion Hls; subst. cbn [join]. now apply splitlines_single.
  - inversion Hls; subst. rewrite join_cons2. cbn [app].
    rewrite splitlines_line_then by assumption.
    rewrite IH; [reflexivity|assumption|exact Hlast].
Qed.

(** An empty last line is lost instead. *)
Lemma splitlines_join_open_blank (ls : list pystr) :
  Forall one_line ls -> ls <> [] -> last ls [] = [] ->
  splitlines (join [LF] ls) = removelast ls.
Proof.
  induction ls as [|x [|y ys] IH]; intros Hls Hne Hlast; [congruence| |].
  - cbn [last] in Hlast. subst x. reflexivity.
  - inversion Hls; subst. rewrite join_cons2. cbn [app].
    rewrite splitlines_line_then by assumption.
    rewrite IH; [reflexivity|assumption|discriminate|exact Hlast].
Qed.

Lemma endswith_newline_snoc (s : pystr) (c : N) :
  endswith_newline (s ++ [c]) = N.eqb c LF.
Proof. unfold endswith_newline. now rewrite rev_unit. Qed.

Lemma join_ends_with_last (sep : pystr) (ls : list pystr) :
  ls <> [] -> exists pre, join sep ls = pre ++ last ls [].
Proof.
  induction ls as [|x [|y ys] IH]; intros Hne; [congruence| |].
  - exists []. reflexivity.
  - destruct IH as [pre Hpre]; [discriminate|].
    exists (x ++ sep ++ pre). rewrite join_cons2, Hpre.
    now rewrite <- !app_assoc.
Qed.

Lemma linebreak_LF : is_linebreak LF = true.
Proof. reflexivity. Qed.

Lemma open_join_has_no_final_newline (ls : list pystr) :
  Forall one_line ls -> last ls [] <> [] ->
  endswith_newline (join [LF] ls) = false.
Proof.
  intros Hls Hlast.
  assert (Hne : ls <> []) by (intros ->; now apply Hlast).
  destruct (join_ends_with_last [LF] Hne) as [pre ->].
  destruct (exists_last Hne) as (front & z & ->).
  rewrite last_last in *.
  apply Forall_app in Hls. destruct Hls as [_ Hz].
  inversion Hz as [|? ? Hl _]; subst.
  destruct (exists_last Hlast) as (body & c & ->).
  rewrite app_assoc, endswith_newline_snoc.
  apply one_line_app in Hl. destruct Hl as [_ Hc].
  apply one_line_cons in Hc. destruct Hc as [Hc _].
  destruct (N.eqb_spec c LF) as [->|]; [|reflexivity].
  rewrite linebreak_LF in Hc. discriminate.
Qed.

Lemma include_line_one_line (h : pystr) :
  one_line h -> one_line (include_line h).
Proof.
  intros Hh. unfold include_line.
  apply one_line_app. split; [reflexivity|].
  apply one_line_app. split; [assumption|reflexivity].
Qed.

Lemma new_lines_one_line (lines needed : list pystr) :
  Forall one_line lines -> Forall one_line needed ->
  Forall one_line (new_lines_of lines needed).
Proof.
  intros Hl Hn. unfold new_lines_of.
  rewrite <- (firstn_skipn (insert_position lines) lines) in Hl at 1.
  apply Forall_app in Hl. destruct Hl as [Hhead Htail].
  apply Forall_app. split; [assumption|].
  apply Forall_app. split; [|assumption].
  apply Forall_map. eapply Forall_impl; [|exact Hn].
  exact include_line_one_line.
Qed.

Lemma new_lines_not_nil (lines needed : list pystr) :
  needed <> [] -> new_lines_of lines needed <> [].
Proof.
  intros Hne H. unfold new_lines_of in H.
  apply app_eq_nil in H. destruct H as [_ H].
  apply app_eq_nil in H. destruct H as [H _].
  destruct needed; [congruence|discriminate].
Qed.

(** X19: where the round trip of C5 does hold: the content ends with a
    line feed, or the last of the new lines is not empty.  Then the
    replacement splits back into exactly the new lines, and it ends with a
    line feed if and only if the content did. *)
Lemma resplit_when_last_line_kept (content : pystr) (needed : list pystr) :
  needed <> [] -> Forall one_line needed ->
  endswith_newline content = true \/
    last (new_lines_of (splitlines content) needed) [] <> [] ->
  splitlines (replacement_of content needed) =
    new_lines_of (splitlines content) needed /\
  endswith_newline (replacement_of content needed) =
    endswith_newline content.
Proof.
  intros Hne Hclean Hcase.
  assert (Hlines : Forall one_line (new_lines_of (splitlines content) needed))
    by (apply new_lines_one_line; [apply splitlines_one_line|assumption]).
  assert (Hsome : new_lines_of (splitlines content) needed <> [])
    by now apply new_lines_not_nil.
  unfold replacement_of.
  destruct (endswith_newline content) eqn:Hend.
  - split; [now apply splitlines_join_closed|].
    apply endswith_newline_snoc.
  - destruct Hcase as [Hcase|Hlast]; [discriminate|].
    rewrite app_nil_r. split; [now apply splitlines_join_open|].
    now apply open_join_has_no_final_newline.
Qed.

(** X20: and where it does not: a content that does not end with a line
    feed and whose last new line is empty loses that line. *)
Lemma resplit_loses_blank_last_line (content : pystr) (needed : list pystr) :
  needed <> [] -> Forall one_line needed ->
  endswith_newline content = false ->
  last (new_lines_of (splitlines content) needed) [] = [] ->
  splitlines (replacement_of content needed) =
    removelast (new_lines_of (splitlines content) needed).
Proof.
  intros Hne Hclean Hend Hlast.
  unfold replacement_of. rewrite Hend, app_nil_r.
  apply splitlines_join_open_blank; try assumption.
  - apply new_lines_one_line; [apply splitlines_one_line|assumption].
  - now apply new_lines_not_nil.
Qed.

(** C5 at a content with bare carriage returns and a blank last line,
    ["int x;\r\r"], and the dependency ["chrono"]: the re-split replacement
    has two lines where three are due (the blank last line is gone), and it
    ends with a line feed although the content did not. *)
Theorem blank_last_line_is_lost :
  splitlines (str "int x;" ++ [CR; CR]) = [str "int x;"; []] /\
  new_lines_of (splitlines (str "int x;" ++ [CR; CR])) [str "chrono"] =
    [str "#include <chrono>"; str "int x;"; []] /\
  replacement_of (str "int x;" ++ [CR; CR]) [str "chrono"] =
    str "#include <chrono>" ++ [LF] ++ str "int x;" ++ [LF] /\
  splitlines (replacement_of (str "int x;" ++ [CR; CR]) [str "chrono"]) =
    [str "#include <chrono>"; str "int x;"] /\
  endswith_newline (str "int x;" ++ [CR; CR]) = false /\
  endswith_newline (replacement_of (str "int x;" ++ [CR; CR]) [str "chrono"])
    = true.
Proof. repeat split; reflexivity. Qed.

(** ** The edit handed to the engine *)

Lemma splitlines_nil_iff (s : pystr) : splitlines s = [] <-> s = [].
Proof.
  split; [|intros ->; reflexivity].
  destruct s as [|c rest]; [reflexivity|]. cbn [splitlines].
  destruct (is_linebreak c); [discriminate|].
  destruct (splitlines rest); discriminate.
Qed.

(** X24: whatever the run, the [edits.json] it writes holds one edit, made
    from the content just read: it starts at line 1 and ends at the number
    of lines of that content. *)
Lemma submitted_edit_shape (w : World) (task workspace logs_root : pystr)
    (engine : EngineClient) (data : pyvalue) :
  In (WriteText (artifact w logs_root "edits.json") data)
     (snd (run w task workspace engine logs_root)) ->
  exists payload text added,
    answer w engine (read_args workspace) = inr payload /\
    py_getitem payload (str "content") = inr (PStr text) /\
    data = edits_json [whole_file_edit text added] /\
    start_line (whole_file_edit text added) = 1 /\
    end_line (whole_file_edit text added) =
      Z.of_nat (List.length (splitlines text)).
Proof.
  start_run. fold_artifacts.
  fold (read_args workspace). fold (search_args workspace).
  repeat step; intros Hin; find_written Hin.
  all: injection Hin as <-; eexists _, _, _; repeat split; eassumption.
Qed.

(** X25: with at least one character in the content the range is well
    formed: it starts at line 1 and does not end before it. *)
Lemma whole_file_edit_range (text : pystr) (needed : list pystr) :
  text <> [] ->
  1 = start_line (whole_file_edit text needed) /\
  start_line (whole_file_edit text needed)
    <= end_line (whole_file_edit text needed) /\
  end_line (whole_file_edit text needed)
    = Z.of_nat (List.length (splitlines text)).
Proof.
  intros Hne. cbn [whole_file_edit start_line end_line].
  repeat split.
  destruct (splitlines text) eqn:E.
  - apply splitlines_nil_iff in E. contradiction.
  - cbn [List.length]. lia.
Qed.

(** C6 on an empty target file: the run does reach the apply step, and the
    one edit it submits runs from line 1 to line 0. *)
Theorem empty_file_edit_is_inverted :
  In (RunEngine (engine_path demo_engine
                   :: apply_args world_empty_file demo_workspace demo_logs))
     (snd (demo_run world_empty_file)) /\
  filter (writes_file (artifact world_empty_file demo_logs "edits.json"))
         (snd (demo_run world_empty_file)) =
    [ WriteText (artifact world_empty_file demo_logs "edits.json")
        (edits_json [ {| path := str "main.cpp";
                         start_line := 1;
                         end_line := 0;
                         replacement := str "#include <chrono>" |} ]) ].
Proof.
  split.
  - vm_compute. do 9 right. left. reflexivity.
  - vm_compute. reflexivity.
Qed.

(** ** The statements on the scenarios *)

Lemma scenario_build (builds : list outcome) (s r a : CompletedProcess)
    (parses : list (pystr * pyvalue)) (n : nat) (ms : Z)
    (proc : CompletedProcess) :
  nth n builds Hangs = Exits ms proc -> ms <= 60000 ->
  build_completes (scenario builds s r a parses) n
    {| code := returncode proc; build_stdout := stdout proc;
       build_stderr := stderr proc; cmd := [str "./build.sh"] |}.
Proof. intros Hn Hms. exists ms, proc. repeat split; assumption. Qed.

Ltac pick_event := vm_compute; repeat (first [left; reflexivity | right]).

Lemma build_already_ok_witness :
  demo_run world_build_ok =
    (inr (PDict [ (str "ok", PBool true);
                  (str "run_id", PStr (run_id_of world_build_ok));
                  (str "message", PStr (str "build already OK")) ]),
     until_first_build world_build_ok demo_task demo_workspace demo_logs
       ++ [WriteText (artifact world_build_ok demo_logs "build_0.json")
                     (build_json passed_build)]).
Proof.
  apply build_already_ok.
  - apply (@scenario_build [build_passes] _ _ _ _ 0%nat 1500
             (exits_with 0 [] [])); [reflexivity|lia].
  - reflexivity.
Defined.

Lemma unsupported_build_error_witness :
  _extract_missing_includes linker_error = [] /\
  demo_run world_unsupported =
    (inr (PDict [ (str "ok", PBool false);
                  (str "run_id", PStr (run_id_of world_unsupported));
                  (str "error", PStr (str "unsupported_build_error"));
                  (str "build", build_json (failed_build linker_error)) ]),
     until_first_build world_unsupported demo_task demo_workspace demo_logs
       ++ [WriteText (artifact world_unsupported demo_logs "build_0.json")
                     (build_json (failed_build linker_error))]).
Proof.
  apply (@unsupported_build_error world_unsupported demo_task demo_workspace
           demo_logs demo_engine (failed_build linker_error)).
  - apply (@scenario_build [build_fails linker_error] _ _ _ _ 0%nat 1500
             (exits_with 1 [] linker_error)); [reflexivity|lia].
  - discriminate.
  - reflexivity.
Defined.

(** C1, as stated, fails: the first build never ends, and the run ends
    with the exception instead of a verdict that reports [timeout]. *)
Lemma timeout_is_not_a_verdict :
  build_times_out world_build_hangs 0 /\
  (0 < builds_run (snd (demo_run world_build_hangs)))%nat /\
  fst (demo_run world_build_hangs) = inl TimeoutExpired /\
  ~ reports "timeout" (fst (demo_run world_build_hangs)).
Proof.
  repeat split.
  - vm_compute. lia.
  - intros (d & Hd & _). vm_compute in Hd. discriminate.
Qed.

Lemma build_timeout_raises_witness :
  fst (demo_run world_build_hangs) = inl TimeoutExpired /\
  last (snd (demo_run world_build_hangs)) (Mkdir [])
    = the_build demo_workspace.
Proof.
  apply (@build_timeout_raises world_build_hangs demo_task demo_workspace
           demo_logs demo_engine 0%nat).
  - vm_compute. lia.
  - exact I.
Defined.

Lemma second_build_decides_witness :
  builds_run (snd (demo_run (world_patched build_passes))) = 2%nat /\
  engine_calls (snd (demo_run (world_patched build_passes))) = 3%nat /\
  exists added snapshot_id,
    py_get apply_obj (str "snapshot_id") = inr snapshot_id /\
    fst (demo_run (world_patched build_passes)) =
      inr (fixed_verdict (world_patched build_passes) added snapshot_id).
Proof.
  destruct (@second_build_decides (world_patched build_passes) demo_task
              demo_workspace demo_logs demo_engine apply_obj (PBool true))
    as (Hbuilds & Hcalls & Hverdict).
  - pick_event.
  - reflexivity.
  - reflexivity.
  - split; [exact Hbuilds|]. split; [exact Hcalls|].
    destruct (Hverdict passed_build)
      as (text & added & snapshot_id & _ & Hid & _ & Hfst).
    + apply (@scenario_build [build_fails chrono_error; build_passes]
               _ _ _ _ 1%nat 1500 (exits_with 0 [] [])); [reflexivity|lia].
    + exists added, snapshot_id. split; [exact Hid|exact Hfst].
Defined.

Lemma rescan_excludes_declared_witness :
  rescan (PStr thread_source) (_extract_missing_includes thread_error)
    = inr [] /\
  exists search,
    demo_run world_already_present =
      (inr (already_present_verdict world_already_present),
       until_read world_already_present demo_task demo_workspace demo_logs
                  demo_engine (failed_build thread_error) search).
Proof.
  split; [reflexivity|].
  destruct (@rescan_excludes_declared world_already_present demo_task
              demo_workspace demo_logs demo_engine
              (failed_build thread_error) (read_obj thread_source)
              (PBool true) (PStr thread_source) [])
    as (_ & Hnone & _).
  - apply (@scenario_build [build_fails thread_error] _ _ _ _ 0%nat 1500
             (exits_with 1 [] thread_error)); [reflexivity|lia].
  - pick_event.
  - reflexivity.
  - reflexivity.
  - reflexivity.
  - reflexivity.
  - reflexivity.
  - exact (Hnone eq_refl).
Defined.

(** The extractor on a text that repeats one signature and carries a
    second one of the same dependency. *)
Example extract_repeated_signature :
  _extract_missing_includes
    (str "a.cpp:3: error: 'this_thread' is not a member of 'std'" ++ [LF]
     ++ str "a.cpp:9: error: 'this_thread' is not a member of 'std'" ++ [LF]
     ++ str "note: in namespace 'std::this_thread'") = [str "thread"].
Proof. reflexivity. Qed.

(** * Further properties *)

(** ** Every run *)

Ltac verdict_is_well_formed :=
  let v := fresh "v" in
  let Hv := fresh "Hv" in
  intros v Hv;
  first
    [ discriminate Hv
    | injection Hv as <-;
      eexists; split; [reflexivity|]; split; [reflexivity|];
      first [ left; split; reflexivity
            | right; split; [reflexivity|];
              eexists; split; [|reflexivity];
              cbn [error_kinds In]; auto 10 ] ].

Ltac passed_build_behind_ok :=
  let d := fresh "d" in
  let Hd := fresh "Hd" in
  let Hok := fresh "Hok" in
  intros d Hd Hok;
  first
    [ discriminate Hd
    | injection Hd as <-;
      first
        [ discriminate Hok
        | unfold last_build_passed;
          cbn [builds_run filter is_run_cmd the_build List.length];
          eexists _, _; split; [reflexivity|]; split; [eassumption|];
          match goal with
          | H : context [code ?b =? 0] |- code ?b = 0 =>
              destruct (code b =? 0) eqn:Hcode; try discriminate H;
              now apply Z.eqb_eq
          end ] ].

Lemma run_invariants (w : World) (task workspace logs_root : pystr)
    (engine : EngineClient) :
  firstn 4 (snd (run w task workspace engine logs_root)) =
    until_first_build w task workspace logs_root /\
  is_prefix (filter is_run_engine (snd (run w task workspace engine logs_root)))
            (engine_sequence w workspace logs_root engine) /\
  (filter is_run_cmd (snd (run w task workspace engine logs_root)) =
     [the_build workspace] \/
   filter is_run_cmd (snd (run w task workspace engine logs_root)) =
     [the_build workspace; the_build workspace]) /\
  (forall v, fst (run w task workspace engine logs_root) = inr v ->
     well_formed_verdict w v) /\
  (forall d, fst (run w task workspace engine logs_root) = inr (PDict d) ->
     dict_lookup d (str "ok") = Some (PBool true) ->
     last_build_passed w (snd (run w task workspace engine logs_root))).
Proof.
  start_run. fold_artifacts.
  fold (read_args workspace). fold (search_args workspace).
  repeat step.
  all: cbn [ret raise fst snd firstn filter is_run_engine is_run_cmd the_build
       builds_run List.length].
  all: split; [|split; [|split; [|split]]].
  all: try reflexivity.
  all: try (eexists; reflexivity).
  all: try (first [ left; reflexivity | right; reflexivity ]).
  all: first [ verdict_is_well_formed | passed_build_behind_ok ].
Qed.


(** X2: the engine requests of a run are an initial part of: one search,
    one read of [main.cpp], one apply of [edits.json].  So there are never
    more than three, never two of a kind, never a rollback or a file
    listing, and no request is repeated after a failure. *)
Theorem engine_requests_in_order (w : World)
    (task workspace logs_root : pystr) (engine : EngineClient) :
  is_prefix
    (filter is_run_engine (snd (run w task workspace engine logs_root)))
    (engine_sequence w workspace logs_root engine).
Proof. apply run_invariants. Qed.

(** X3: a run builds once or twice, never more, each time [./build.sh] in
    the workspace with a timeout of 60 seconds. *)
Theorem one_or_two_builds (w : World)
    (task workspace logs_root : pystr) (engine : EngineClient) :
  filter is_run_cmd (snd (run w task workspace engine logs_root)) =
    [the_build workspace] \/
  filter is_run_cmd (snd (run w task workspace engine logs_root)) =
    [the_build workspace; the_build workspace].
Proof. apply run_invariants. Qed.

(** X4: every verdict a run returns is a dictionary that carries the run
    identifier and a boolean [ok]; with [ok] true it has no [error], with
    [ok] false its [error] is one of the five kinds of [error_kinds]. *)
Theorem verdicts_are_well_formed (w : World)
    (task workspace logs_root : pystr) (engine : EngineClient)
    (v : pyvalue) :
  fst (run w task workspace engine logs_root) = inr v ->
  well_formed_verdict w v.
Proof. apply run_invariants. Qed.

(** X5: a verdict with [ok] true is returned only when the last build of
    the run ended in time with exit code 0. *)
Theorem ok_only_after_a_passing_build (w : World)
    (task workspace logs_root : pystr) (engine : EngineClient) (d : dict) :
  fst (run w task workspace engine logs_root) = inr (PDict d) ->
  dict_lookup d (str "ok") = Some (PBool true) ->
  last_build_passed w (snd (run w task workspace engine logs_root)).
Proof. apply run_invariants. Qed.

Lemma verdicts_are_well_formed_witness :
  well_formed_verdict world_apply_rejected
    (apply_failed_verdict world_apply_rejected rejected_obj).
Proof.
  apply (@verdicts_are_well_formed world_apply_rejected demo_task
           demo_workspace demo_logs demo_engine).
  reflexivity.
Defined.

Lemma ok_only_after_a_passing_build_witness :
  last_build_passed (world_patched build_passes)
    (snd (demo_run (world_patched build_passes))).
Proof.
  apply (@ok_only_after_a_passing_build (world_patched build_passes)
           demo_task demo_workspace demo_logs demo_engine
           [ (str "ok", PBool true);
             (str "run_id", PStr (run_id_of (world_patched build_passes)));
             (str "fixed", PStr (str "missing_include"));
             (str "added_includes", PList [PStr (str "chrono")]);
             (str "snapshot_id", PStr (str "s1")) ]).
  - reflexivity.
  - reflexivity.
Defined.

(** ** The failure exits of a run *)

(** X6: when the answer to the read request has a false [ok] (or none),
    the run returns [read_file_failed] with that answer as detail and
    stops there: one build, no edit, no apply. *)
Theorem read_failure_ends_the_run (w : World)
    (task workspace logs_root : pystr) (engine : EngineClient)
    (payload ok : pyvalue) :
  In (RunEngine (engine_path engine :: read_args workspace))
     (snd (run w task workspace engine logs_root)) ->
  answer w engine (read_args workspace) = inr payload ->
  py_get payload (str "ok") = inr ok ->
  truthy ok = false ->
  fst (run w task workspace engine logs_root) =
    inr (read_failed_verdict w payload) /\
  last (snd (run w task workspace engine logs_root)) (Mkdir []) =
    RunEngine (engine_path engine :: read_args workspace) /\
  builds_run (snd (run w task workspace engine logs_root)) = 1%nat.
Proof.
  intros Hread Hpayload Hok Hfalse. revert Hread.
  start_run. fold_artifacts.
  fold (read_args workspace). fold (search_args workspace).
  repeat step; intros Hread; find_written Hread.
  all: unify_results.
  all: try (rewrite Hfalse in *; discriminate).
  all: repeat split.
Qed.

Lemma read_failure_ends_the_run_witness :
  fst (demo_run world_read_fails) =
    inr (read_failed_verdict world_read_fails
           (engine_failed_answer
              (exits_with 1 [] (str "cannot open main.cpp"))
              (read_args demo_workspace))) /\
  builds_run (snd (demo_run world_read_fails)) = 1%nat.
Proof.
  destruct (@read_failure_ends_the_run world_read_fails demo_task
              demo_workspace demo_logs demo_engine
              (engine_failed_answer
                 (exits_with 1 [] (str "cannot open main.cpp"))
                 (read_args demo_workspace))
              (PBool false)) as (Hverdict & _ & Hbuilds).
  - pick_event.
  - reflexivity.
  - reflexivity.
  - reflexivity.
  - split; assumption.
Defined.

(** X7: when the answer recorded in [apply.json] has a false [ok] (or
    none), the run returns [apply_failed] with that answer as detail, and
    [apply.json] is the last thing it writes: no second build, no retry. *)
Theorem apply_failure_ends_the_run (w : World)
    (task workspace logs_root : pystr) (engine : EngineClient)
    (apply_res ok : pyvalue) :
  In (WriteText (artifact w logs_root "apply.json") apply_res)
     (snd (run w task workspace engine logs_root)) ->
  py_get apply_res (str "ok") = inr ok ->
  truthy ok = false ->
  fst (run w task workspace engine logs_root) =
    inr (apply_failed_verdict w apply_res) /\
  last (snd (run w task workspace engine logs_root)) (Mkdir []) =
    WriteText (artifact w logs_root "apply.json") apply_res /\
  builds_run (snd (run w task workspace engine logs_root)) = 1%nat.
Proof.
  intros Happly Hok Hfalse. revert Happly.
  start_run. fold_artifacts.
  repeat step; intros Happly; find_written Happly.
  all: injection Happly as <-.
  all: unify_results.
  all: try (rewrite Hfalse in *; discriminate).
  all: repeat split.
Qed.

Lemma apply_failure_ends_the_run_witness :
  fst (demo_run world_apply_rejected) =
    inr (apply_failed_verdict world_apply_rejected rejected_obj) /\
  builds_run (snd (demo_run world_apply_rejected)) = 1%nat.
Proof.
  destruct (@apply_failure_ends_the_run world_apply_rejected demo_task
              demo_workspace demo_logs demo_engine rejected_obj
              (PBool false)) as (Hverdict & _ & Hbuilds).
  - pick_event.
  - reflexivity.
  - reflexivity.
  - split; assumption.
Defined.

Lemma rescan_type_error (content : pyvalue) (needed : list pystr) :
  not_a_container content -> rescan content needed = inl TypeError.
Proof.
  intros Hno. unfold rescan, scan_usage.
  destruct content; try contradiction; reflexivity.
Qed.

(** X8: a read answer that claims success and has no [content] makes
    [file_payload["content"]] raise [KeyError]; a [content] that is no
    container ([null], a boolean, a number) makes the first [in] test raise
    [TypeError].  Nothing catches either: the run ends with the exception
    right after the read request and returns no verdict. *)
Theorem unusable_content_raises (w : World)
    (task workspace logs_root : pystr) (engine : EngineClient)
    (d : dict) (ok : pyvalue) :
  In (RunEngine (engine_path engine :: read_args workspace))
     (snd (run w task workspace engine logs_root)) ->
  answer w engine (read_args workspace) = inr (PDict d) ->
  dict_get d (str "ok") PNone = ok ->
  truthy ok = true ->
  (dict_lookup d (str "content") = None ->
     fst (run w task workspace engine logs_root) = inl KeyError) /\
  (forall content, dict_lookup d (str "content") = Some content ->
     not_a_container content ->
     fst (run w task workspace engine logs_root) = inl TypeError) /\
  (dict_lookup d (str "content") = None \/
   (exists content, dict_lookup d (str "content") = Some content /\
                    not_a_container content) ->
   last (snd (run w task workspace engine logs_root)) (Mkdir []) =
     RunEngine (engine_path engine :: read_args workspace)).
Proof.
  intros Hread Hpayload Hok Htruthy. revert Hread.
  start_run. fold_artifacts.
  fold (read_args workspace). fold (search_args workspace).
  repeat step; intros Hread; find_written Hread.
  all: clear Hread; unify_results.
  all: cbn [py_get py_getitem] in *; unify_results.
  all: try (rewrite Htruthy in *; discriminate).
  all: cbn [ret raise fst snd last].
  all: destruct (dict_lookup d (str "content")) as [content|] eqn:Hc;
    cbn beta iota in *; unify_results.
  all: split; [intros Hnone|split; [intros c Hsome Hno|intros Hcase]].
  all: try discriminate; try reflexivity.
  all: try (injection Hsome as <-).
  all: try (destruct Hcase as [Hnone|(c & Hsome & Hno)];
            [discriminate Hnone|injection Hsome as <-]).
  all: try match goal with
       | Hbad : not_a_container ?c, H : rescan ?c ?n = _ |- _ =>
           pose proof (@rescan_type_error c n Hbad)
       end.
  all: unify_results; try discriminate; try reflexivity; try congruence.
  all: try (cbn [not_a_container] in Hno; contradiction).
Qed.

Lemma unusable_content_raises_witness :
  fst (demo_run world_no_content) = inl KeyError /\
  fst (demo_run world_null_content) = inl TypeError.
Proof.
  split.
  - destruct (@unusable_content_raises world_no_content demo_task
                demo_workspace demo_logs demo_engine
                [ (str "ok", PBool true) ] (PBool true)) as (Hkey & _).
    + pick_event.
    + reflexivity.
    + reflexivity.
    + reflexivity.
    + apply Hkey. reflexivity.
  - destruct (@unusable_content_raises world_null_content demo_task
                demo_workspace demo_logs demo_engine
                [ (str "ok", PBool true); (str "content", PNone) ]
                (PBool true)) as (_ & Htype & _).
    + pick_event.
    + reflexivity.
    + reflexivity.
    + reflexivity.
    + apply (Htype PNone); [reflexivity|exact I].
Defined.



(** ** More on the engine client *)

(** X10: after a non-zero exit the client never hands back an answer whose
    [ok] is [True], whatever the engine printed. *)
Theorem nonzero_exit_is_never_ok (w : World) (proc : CompletedProcess)
    (args : list pystr) (v : pyvalue) :
  returncode proc <> 0 ->
  run_result w proc args = inr v ->
  py_get v (str "ok") <> inr (PBool true).
Proof.
  intros Hrc. apply Z.eqb_neq in Hrc. unfold run_result. rewrite Hrc.
  cbn [negb andb].
  destruct (strip_is_empty (stdout proc)); [intros [= <-]; discriminate|].
  destruct (json_loads w (stdout proc)) as [payload|];
    [|intros [= <-]; discriminate].
  destruct (py_get payload (str "ok")) as [e|ok] eqn:Hok; [discriminate|].
  destruct (is_True ok) eqn:Htrue.
  - destruct payload; try discriminate. intros [= <-]. cbn [py_get].
    unfold dict_get at 1.
    rewrite dict_lookup_set_other by (intro H; now apply ok_is_not_error).
    rewrite dict_lookup_set_same. discriminate.
  - intros [= <-]. rewrite Hok. intros [= ->]. discriminate.
Qed.

Lemma nonzero_exit_is_never_ok_witness :
  py_get (PDict [ (str "ok", PBool false);
                  (str "snapshot_id", PStr (str "s1"));
                  (str "error", PStr (str "engine_nonzero_exit")) ])
         (str "ok") <> inr (PBool true).
Proof.
  apply (@nonzero_exit_is_never_ok world_odd_engine
           (exits_with 3 apply_text_out []) [str "apply-edits"]).
  - discriminate.
  - reflexivity.
Defined.



(** X12: the normalization of a non-zero exit touches [ok] and [error]
    only: every other field of the engine's object (a [snapshot_id], say)
    is handed back as the engine gave it. *)
Theorem normalization_keeps_other_fields (w : World)
    (proc : CompletedProcess) (args : list pystr) (d : dict) :
  returncode proc <> 0 ->
  strip_is_empty (stdout proc) = false ->
  json_loads w (stdout proc) = Some (PDict d) ->
  dict_lookup d (str "ok") = Some (PBool true) ->
  exists d', run_result w proc args = inr (PDict d') /\
    forall k, k <> str "ok" -> k <> str "error" ->
      dict_lookup d' k = dict_lookup d k.
Proof.
  intros Hrc Hout Hparse Hok. apply Z.eqb_neq in Hrc.
  unfold run_result. rewrite Hrc, Hout, Hparse. cbn [negb andb py_get].
  unfold dict_get at 1. rewrite Hok. cbn [is_True].
  eexists. split; [reflexivity|].
  intros k Hk1 Hk2.
  rewrite !dict_lookup_set_other by congruence. reflexivity.
Qed.

Lemma normalization_keeps_other_fields_witness :
  exists d', run_result world_odd_engine (exits_with 3 apply_text_out [])
                        [str "apply-edits"] = inr (PDict d') /\
    dict_lookup d' (str "snapshot_id") = Some (PStr (str "s1")).
Proof.
  destruct (@normalization_keeps_other_fields world_odd_engine
              (exits_with 3 apply_text_out []) [str "apply-edits"]
              [ (str "ok", PBool true); (str "snapshot_id", PStr (str "s1")) ])
    as (d' & Hres & Hkeep).
  - discriminate.
  - reflexivity.
  - reflexivity.
  - reflexivity.
  - exists d'. split; [exact Hres|].
    rewrite Hkeep by discriminate. reflexivity.
Defined.

(** ** More on the Diagnostic Extractor *)

(** X13: the extractor's result is the fixed list [chrono, thread]
    filtered by "one of its signatures occurs in the text": the order of
    the result never follows the order of the diagnostics in the text. *)
Theorem extract_is_an_ordered_filter (text : pystr) :
  _extract_missing_includes text =
  filter (fun dep => has_signature_for dep text)
         [str "chrono"; str "thread"].
Proof.
  rewrite extract_closed_form. cbn [filter].
  rewrite !has_signature_for_split.
  change (pystr_eqb (str "chrono") (str "chrono")) with true.
  change (pystr_eqb (str "thread") (str "thread")) with true.
  change (pystr_eqb (str "thread") (str "chrono")) with false.
  change (pystr_eqb (str "chrono") (str "thread")) with false.
  cbn [andb orb]. rewrite orb_false_r.
  destruct (chrono_matched text), (thread_matched text); reflexivity.
Qed.

(** X14: the extractor returns the empty list exactly when no signature of
    the table occurs in the text. *)
Theorem extract_empty_iff_no_signature (text : pystr) :
  _extract_missing_includes text = [] <-> has_signature text = false.
Proof.
  rewrite extract_closed_form.
  assert (Hsig : has_signature text =
                 chrono_matched text || thread_matched text).
  { unfold has_signature, signatures, existsb, chrono_matched,
      thread_matched. cbn [fst].
    rewrite orb_false_r, !orb_assoc. reflexivity. }
  rewrite Hsig.
  destruct (chrono_matched text), (thread_matched text); cbn;
    split; intros H; try reflexivity; discriminate H.
Qed.

Lemma strip_prefix_app (l s rest post : pystr) :
  strip_prefix l s = Some rest ->
  strip_prefix l (s ++ post) = Some (rest ++ post).
Proof.
  revert s. induction l as [|a l IH]; intros s H.
  - cbn in *. now injection H as <-.
  - destruct s as [|b s]; [discriminate|]. cbn [strip_prefix app] in *.
    destruct (N.eqb a b); [now apply IH|discriminate].
Qed.

Lemma spaces1_app (k k' : pystr -> bool) (post s : pystr) :
  (forall x, k x = true -> k' (x ++ post) = true) ->
  spaces1 k s = true -> spaces1 k' (s ++ post) = true.
Proof.
  intros Hk. induction s as [|c s IH]; [discriminate|].
  cbn [spaces1 app]. intros H.
  apply andb_true_iff in H. destruct H as [Hc H]. rewrite Hc. cbn [andb].
  apply orb_true_iff in H. apply orb_true_iff.
  destruct H as [H|H]; [left; now apply IH|right; now apply Hk].
Qed.

Lemma rmatch_app (r : regex) (post : pystr) :
  forall (k k' : pystr -> bool) (s : pystr),
    (forall x, k x = true -> k' (x ++ post) = true) ->
    rmatch r k s = true -> rmatch r k' (s ++ post) = true.
Proof.
  induction r as [l| |a IHa b IHb|a IHa b IHb]; intros k k' s Hk;
    cbn [rmatch].
  - destruct (strip_prefix l s) as [rest|] eqn:E; [|discriminate].
    rewrite (strip_prefix_app _ _ post E). apply Hk.
  - now apply spaces1_app.
  - intros H. apply orb_true_iff in H. apply orb_true_iff.
    destruct H as [H|H];
      [left; now apply IHa with k|right; now apply IHb with k].
  - apply IHa. intros x. now apply IHb.
Qed.

Lemma re_search_app_r (r : regex) (s post : pystr) :
  re_search r s = true -> re_search r (s ++ post) = true.
Proof.
  induction s as [|c s IH]; cbn [re_search app].
  - rewrite orb_false_r. intros H.
    apply rmatch_app with (post := post) (k' := fun _ => true) in H;
      [|reflexivity].
    cbn [app] in H. destruct post; cbn [re_search]; now rewrite H.
  - intros H. apply orb_true_iff in H. apply orb_true_iff.
    destruct H as [H|H]; [left|right; now apply IH].
    now apply rmatch_app with (post := post) (k' := fun _ => true) in H.
Qed.

Lemma re_search_app_l (r : regex) (pre s : pystr) :
  re_search r s = true -> re_search r (pre ++ s) = true.
Proof.
  intros H. induction pre as [|c pre IH]; [exact H|].
  cbn [app re_search]. rewrite IH. apply orb_true_r.
Qed.

Lemma has_signature_for_in_context (dep pre text post : pystr) :
  has_signature_for dep text = true ->
  has_signature_for dep (pre ++ text ++ post) = true.
Proof.
  unfold has_signature_for. rewrite !existsb_exists.
  intros (sg & Hin & H). exists sg. split; [assumption|].
  apply andb_true_iff in H. destruct H as [Hd Hs].
  rewrite Hd. cbn [andb].
  apply re_search_app_l. now apply re_search_app_r.
Qed.

(** X15: text around a diagnostic never hides it: a dependency extracted
    from a text is extracted from every text that contains it. *)
Theorem extract_grows_with_context (dep pre text post : pystr) :
  In dep (_extract_missing_includes text) ->
  In dep (_extract_missing_includes (pre ++ text ++ post)).
Proof.
  rewrite !extract_is_an_ordered_filter, !filter_In.
  intros [Hin H]. split; [assumption|].
  now apply has_signature_for_in_context.
Qed.

Lemma extract_grows_with_context_witness :
  In (str "chrono")
     (_extract_missing_includes
        (str "In file included from main.cpp:1:" ++ chrono_error
           ++ str "; did you forget to include <chrono>?")).
Proof.
  apply extract_grows_with_context. left. reflexivity.
Defined.

(** ** More on the Patch Synthesizer *)

Lemma insert_position_after (pre post : list pystr) (l : pystr) :
  startswith l (str "#include") = true ->
  (forall line, In line post -> startswith line (str "#include") = false) ->
  forall k acc,
    fold_left (fun insert_at il =>
                 if startswith (snd il) (str "#include")
                 then (fst il + 1)%nat else insert_at)
              (combine (seq k (List.length (pre ++ l :: post)))
                       (pre ++ l :: post)) acc
    = S (k + List.length pre).
Proof.
  intros Hl Hpost. induction pre as [|x pre IH]; intros k acc.
  - cbn [app List.length seq combine fold_left fst snd]. rewrite Hl.
    rewrite insert_position_from by assumption. lia.
  - cbn [app List.length seq combine fold_left]. rewrite IH. lia.
Qed.

Lemma firstn_past_prefix {A} (pre post : list A) (l : A) :
  firstn (S (List.length pre)) (pre ++ l :: post) = pre ++ [l] /\
  skipn (S (List.length pre)) (pre ++ l :: post) = post.
Proof.
  induction pre as [|x pre [IH1 IH2]]; [split; reflexivity|].
  cbn [List.length app]. split.
  - rewrite firstn_cons, IH1. reflexivity.
  - rewrite skipn_cons. exact IH2.
Qed.

(** X16: when the content has lines that start with [#include], the new
    include lines go right after the last of them, in the order of the
    list; the lines before and after stay as they were, in their order. *)
Theorem insert_after_last_include (pre post needed : list pystr)
    (l : pystr) :
  startswith l (str "#include") = true ->
  (forall line, In line post -> startswith line (str "#include") = false) ->
  insert_position (pre ++ l :: post) = S (List.length pre) /\
  new_lines_of (pre ++ l :: post) needed =
    pre ++ l :: map include_line needed ++ post.
Proof.
  intros Hl Hpost.
  assert (Hpos : insert_position (pre ++ l :: post) = S (List.length pre)).
  { unfold insert_position, enumerate.
    now rewrite insert_position_after. }
  split; [exact Hpos|].
  unfold new_lines_of. rewrite Hpos.
  destruct (firstn_past_prefix pre post l) as [-> ->].
  rewrite <- app_assoc. reflexivity.
Qed.

Lemma insert_after_last_include_witness :
  new_lines_of [str "#include <iostream>"; str "#include <vector>";
                str "int main() {}"] [str "chrono"; str "thread"] =
    [str "#include <iostream>"; str "#include <vector>";
     str "#include <chrono>"; str "#include <thread>"; str "int main() {}"].
Proof.
  destruct (@insert_after_last_include [str "#include <iostream>"]
              [str "int main() {}"] [str "chrono"; str "thread"]
              (str "#include <vector>")) as [_ H].
  - reflexivity.
  - intros line [<-|[]]. reflexivity.
  - exact H.
Defined.

Lemma insert_position_bound (lines : list pystr) (k acc : nat) :
  (acc <= k)%nat ->
  (fold_left (fun insert_at il =>
                if startswith (snd il) (str "#include")
                then (fst il + 1)%nat else insert_at)
             (combine (seq k (List.length lines)) lines) acc
   <= k + List.length lines)%nat.
Proof.
  revert k acc. induction lines as [|x lines IH]; intros k acc Hacc.
  - cbn. lia.
  - cbn [List.length seq combine fold_left fst snd].
    destruct (startswith x (str "#include"));
      (etransitivity; [apply IH|]); lia.
Qed.

Lemma cut_out_middle {A} (a b c : list A) :
  firstn (List.length a) (a ++ b ++ c)
    ++ skipn (List.length a + List.length b) (a ++ b ++ c) = a ++ c.
Proof.
  induction a as [|x a IH].
  - cbn [List.length firstn app plus].
    induction b as [|y b IHb]; [reflexivity|exact IHb].
  - cbn [List.length app plus firstn skipn]. now rewrite IH.
Qed.

(** X17: the insert position lies within the file, the new line list is
    longer than the old one by exactly the number of dependencies, and
    cutting the inserted block out again gives back the original lines:
    no original line is dropped, changed or moved. *)
Theorem inserted_block_is_all_that_changes (lines needed : list pystr) :
  (insert_position lines <= List.length lines)%nat /\
  List.length (new_lines_of lines needed) =
    (List.length lines + List.length needed)%nat /\
  firstn (insert_position lines) (new_lines_of lines needed)
    ++ skipn (insert_position lines + List.length needed)
             (new_lines_of lines needed) = lines.
Proof.
  assert (Hle : (insert_position lines <= List.length lines)%nat).
  { unfold insert_position, enumerate.
    apply (@insert_position_bound lines 0 0). lia. }
  assert (Hk : List.length (firstn (insert_position lines) lines)
               = insert_position lines).
  { rewrite length_firstn. lia. }
  split; [exact Hle|]. split.
  - assert (Hsplit : List.length lines =
              (List.length (firstn (insert_position lines) lines)
               + List.length (skipn (insert_position lines) lines))%nat)
      by (now rewrite <- length_app, firstn_skipn).
    unfold new_lines_of. rewrite !length_app, length_map. lia.
  - pose proof (cut_out_middle (firstn (insert_position lines) lines)
                  (map include_line needed)
                  (skipn (insert_position lines) lines)) as Hcut.
    rewrite Hk, length_map, firstn_skipn in Hcut. exact Hcut.
Qed.

Lemma strip_prefix_refl (x rest : pystr) :
  strip_prefix x (x ++ rest) = Some rest.
Proof.
  induction x as [|c x IH]; [reflexivity|].
  cbn [app strip_prefix]. now rewrite N.eqb_refl.
Qed.

Lemma substr_in_middle (x pre post : pystr) :
  substr_in x (pre ++ x ++ post) = true.
Proof.
  induction pre as [|c pre IH].
  - cbn [app]. destruct (x ++ post) eqn:E; cbn [substr_in];
      unfold startswith; rewrite <- E, strip_prefix_refl; reflexivity.
  - cbn [app substr_in]. rewrite IH. apply orb_true_r.
Qed.

Lemma join_holds_each (sep x : pystr) (ls : list pystr) :
  In x ls -> exists pre post, join sep ls = pre ++ x ++ post.
Proof.
  induction ls as [|y [|z ls] IH]; intros Hin; [destruct Hin| |].
  - destruct Hin as [<-|[]]. exists [], []. cbn. now rewrite app_nil_r.
  - rewrite join_cons2. destruct Hin as [<-|Hin].
    + exists [], (sep ++ join sep (z :: ls)). reflexivity.
    + destruct (IH Hin) as (pre & post & ->).
      exists (y ++ sep ++ pre), post. now rewrite <- !app_assoc.
Qed.

Lemma drop_declared_all (content : pyvalue) (needed : list pystr) :
  (forall h, In h needed -> py_in (include_line h) content = inr true) ->
  drop_declared content needed = inr [].
Proof.
  induction needed as [|h rest IH]; intros Hall; [reflexivity|].
  cbn [drop_declared]. rewrite (Hall h) by now left.
  rewrite IH; [reflexivity|]. intros x Hx. apply Hall. now right.
Qed.

(** X18: the replacement declares every dependency it was built for: the
    include line of each occurs in it, so the filter of line 153, run on
    the replacement, drops them all: a later pass over the patched file
    does not insert them a second time. *)
Theorem replacement_declares_what_was_needed (content : pystr)
    (needed : list pystr) :
  (forall h, In h needed ->
     substr_in (include_line h) (replacement_of content needed) = true) /\
  drop_declared (PStr (replacement_of content needed)) needed = inr [].
Proof.
  assert (H : forall h, In h needed ->
            substr_in (include_line h) (replacement_of content needed)
              = true).
  { intros h Hin. unfold replacement_of.
    destruct (@join_holds_each [LF] (include_line h)
                (new_lines_of (splitlines content) needed))
      as (pre & post & ->).
    - unfold new_lines_of. apply in_or_app. right.
      apply in_or_app. left. now apply in_map.
    - rewrite <- !app_assoc. apply substr_in_middle. }
  split; [exact H|].
  apply drop_declared_all. intros h Hin. cbn [py_in]. now rewrite H.
Qed.

Lemma replacement_declares_what_was_needed_witness :
  substr_in (str "#include <thread>")
            (replacement_of source_text [str "chrono"; str "thread"]) = true.
Proof.
  destruct (replacement_declares_what_was_needed source_text
              [str "chrono"; str "thread"]) as [H _].
  apply (H (str "thread")). right. left. reflexivity.
Defined.

Lemma resplit_when_last_line_kept_witness :
  splitlines (replacement_of source_text [str "chrono"]) =
    new_lines_of (splitlines source_text) [str "chrono"] /\
  endswith_newline (replacement_of source_text [str "chrono"]) =
    endswith_newline source_text.
Proof.
  apply resplit_when_last_line_kept.
  - discriminate.
  - repeat constructor.
  - left. reflexivity.
Defined.

Lemma resplit_loses_blank_last_line_witness :
  splitlines (replacement_of (str "int x;" ++ [CR; CR]) [str "chrono"]) =
    removelast
      (new_lines_of (splitlines (str "int x;" ++ [CR; CR])) [str "chrono"]).
Proof.
  apply resplit_loses_blank_last_line.
  - discriminate.
  - repeat constructor.
  - reflexivity.
  - reflexivity.
Defined.

Lemma whole_file_edit_range_witness :
  1 <= end_line (whole_file_edit source_text [str "chrono"]).
Proof.
  destruct (@whole_file_edit_range source_text [str "chrono"])
    as (H1 & H2 & _).
  - discriminate.
  - rewrite H1. exact H2.
Defined.

Lemma submitted_edit_shape_witness :
  exists payload text added,
    answer (world_patched build_passes) demo_engine
           (read_args demo_workspace) = inr payload /\
    py_getitem payload (str "content") = inr (PStr text) /\
    edits_json [whole_file_edit source_text [str "chrono"]] =
      edits_json [whole_file_edit text added].
Proof.
  destruct (@submitted_edit_shape (world_patched build_passes) demo_task
              demo_workspace demo_logs demo_engine
              (edits_json [whole_file_edit source_text [str "chrono"]]))
    as (payload & text & added & H1 & H2 & H3 & _).
  - pick_event.
  - exists payload, text, added. repeat split; assumption.
Defined.

(** ** More on the content re-scan *)

Lemma str_in_In (x : pystr) (l : list pystr) :
  str_in x l = true <-> In x l.
Proof.
  unfold str_in. rewrite existsb_exists. split.
  - intros (y & Hy & E). apply pystr_eqb_eq in E. now subst.
  - intros H. exists x. split; [assumption|apply pystr_eqb_refl].
Qed.

Lemma drop_declared_text (text : pystr) (needed : list pystr) :
  drop_declared (PStr text) needed =
  inr (filter (fun h => negb (substr_in (include_line h) text)) needed).
Proof.
  induction needed as [|h rest IH]; [reflexivity|].
  cbn [drop_declared py_in filter]. rewrite IH.
  destruct (substr_in (include_line h) text); reflexivity.
Qed.

Lemma scan_usage_text (usage header text : pystr) (needed : list pystr) :
  scan_usage usage header (PStr text) needed =
  inr (if substr_in usage text
          && negb (substr_in (include_line header) text)
          && negb (str_in header needed)
       then needed ++ [header] else needed).
Proof.
  unfold scan_usage. cbn [py_in].
  destruct (substr_in usage text), (substr_in (include_line header) text),
           (str_in header needed); reflexivity.
Qed.

(** X21: on a text content the re-scan never raises, and a dependency is
    in its result exactly when its include line does not occur in the
    content and either the diagnostics named it or the content uses its
    namespace ([std::chrono::] for chrono, [std::this_thread::] for
    thread). *)
Theorem rescan_on_text (text : pystr) (needed : list pystr) :
  exists final,
    rescan (PStr text) needed = inr final /\
    forall h, In h final <->
      substr_in (include_line h) text = false /\
      (In h needed
       \/ h = str "chrono" /\ substr_in (str "std::chrono::") text = true
       \/ h = str "thread" /\
          substr_in (str "std::this_thread::") text = true).
Proof.
  unfold rescan. rewrite scan_usage_text, scan_usage_text, drop_declared_text.
  eexists. split; [reflexivity|]. intros h.
  rewrite filter_In, negb_true_iff.
  split.
  - intros [Hin Hdecl]. split; [assumption|].
    repeat match type of Hin with
           | In _ (if ?c then _ else _) => destruct c eqn:?
           | In _ (_ ++ _) => apply in_app_or in Hin; destruct Hin as [Hin|Hin]
           | In _ [_] => destruct Hin as [<-|[]]
           end;
      repeat match goal with
             | H : _ && _ = true |- _ =>
                 apply andb_true_iff in H; destruct H
             end; auto.
  - intros [Hdecl Hwhy]. split; [|assumption].
    destruct Hwhy as [Hin|[[-> Huse]|[-> Huse]]].
    + destruct (_ && _ && negb (str_in (str "thread") _));
        [apply in_or_app; left|];
        (destruct (_ && _ && _); [apply in_or_app; left|]); assumption.
    + rewrite Huse, Hdecl. cbn [negb andb].
      destruct (str_in (str "chrono") needed) eqn:Hin.
      * apply str_in_In in Hin.
        destruct (_ && _ && _); [apply in_or_app; left|]; assumption.
      * destruct (_ && _ && _); [apply in_or_app; left|];
          apply in_or_app; right; now left.
    + rewrite Huse, Hdecl. cbn [negb andb].
      destruct (str_in (str "thread") _) eqn:Hin.
      * now apply str_in_In in Hin.
      * apply in_or_app. right. now left.
Qed.

Lemma scan_usage_nodup (usage header : pystr) (content : pyvalue)
    (needed out : list pystr) :
  NoDup needed -> scan_usage usage header content needed = inr out ->
  NoDup out /\ incl out (needed ++ [header]).
Proof.
  intros Hnd. unfold scan_usage.
  destruct (py_in usage content) as [|[|]]; try discriminate.
  - destruct (py_in (include_line header) content) as [|[|]];
      try discriminate.
    + intros [= <-]. split; [assumption|]. apply incl_appl, incl_refl.
    + destruct (str_in header needed) eqn:Hin; cbn [negb]; intros [= <-].
      * split; [assumption|]. apply incl_appl, incl_refl.
      * split; [|apply incl_refl].
        apply NoDup_app; [assumption|repeat constructor; intros []|].
        intros x Hx [<-|[]].
        apply str_in_In in Hx. congruence.
  - intros [= <-]. split; [assumption|]. apply incl_appl, incl_refl.
Qed.

Lemma drop_declared_nodup (content : pyvalue) (needed out : list pystr) :
  NoDup needed -> drop_declared content needed = inr out ->
  NoDup out /\ incl out needed.
Proof.
  revert out. induction needed as [|h rest IH]; intros out Hnd.
  - intros [= <-]. split; [constructor|apply incl_refl].
  - cbn [drop_declared].
    destruct (py_in (include_line h) content) as [|present];
      [discriminate|].
    destruct (drop_declared content rest) as [|rest'] eqn:E;
      [discriminate|].
    inversion Hnd as [|? ? Hnot Hrest]; subst.
    destruct (IH rest' Hrest eq_refl) as [Hnd' Hincl].
    intros [= <-]. destruct present.
    + split; [assumption|]. now apply incl_tl.
    + split.
      * constructor; [|assumption]. intros Hin. apply Hnot.
        now apply Hincl.
      * apply incl_cons; [now left|now apply incl_tl].
Qed.

Lemma extract_nodup (text : pystr) :
  NoDup (_extract_missing_includes text) /\
  incl (_extract_missing_includes text) [str "chrono"; str "thread"].
Proof.
  rewrite extract_closed_form.
  destruct (chrono_matched text), (thread_matched text); cbn [app]; split.
  - constructor; [intros [H|[]]; discriminate H|].
    constructor; [intros []|constructor].
  - apply incl_refl.
  - constructor; [intros []|constructor].
  - intros x [<-|[]]. now left.
  - constructor; [intros []|constructor].
  - intros x [<-|[]]. right. now left.
  - constructor.
  - intros x [].
Qed.

(** X22: whatever the build error text and whatever object the read
    answer holds as content, the list the re-scan hands on (when it does
    not raise) names no dependency twice and nothing but [chrono] and
    [thread]. *)
Theorem rescan_result_is_a_set (text : pystr) (content : pyvalue)
    (final : list pystr) :
  rescan content (_extract_missing_includes text) = inr final ->
  NoDup final /\ incl final [str "chrono"; str "thread"].
Proof.
  unfold rescan. destruct (extract_nodup text) as [Hnd Hincl].
  destruct (scan_usage _ _ content _) as [|n1] eqn:E1; [discriminate|].
  destruct (scan_usage_nodup _ _ _ Hnd E1) as [Hnd1 Hincl1].
  destruct (scan_usage _ _ content n1) as [|n2] eqn:E2; [discriminate|].
  destruct (scan_usage_nodup _ _ _ Hnd1 E2) as [Hnd2 Hincl2].
  intros Hfinal.
  destruct (drop_declared_nodup _ Hnd2 Hfinal) as [Hnd3 Hincl3].
  split; [assumption|].
  intros x Hx. apply Hincl3, Hincl2 in Hx.
  apply in_app_or in Hx. destruct Hx as [Hx|[<-|[]]]; [|cbn; tauto].
  apply Hincl1 in Hx.
  apply in_app_or in Hx. destruct Hx as [Hx|[<-|[]]]; [|cbn; tauto].
  now apply Hincl.
Qed.

Lemma rescan_result_is_a_set_witness :
  NoDup [str "chrono"] /\ incl [str "chrono"] [str "chrono"; str "thread"].
Proof.
  apply (@rescan_result_is_a_set chrono_error (PStr source_text)).
  reflexivity.
Defined.

(** ** The command line entry *)













